(** * s3_bucket_metrics.py: a shallow embedding and its verified properties

    The script authenticates against AWS, selects the buckets to report on,
    asks CloudWatch for two metrics per bucket and prints a table followed by
    grand totals.  This development embeds the script's classes and its
    [query_bucket] command as Rocq functions over

    - Python values as the SDK hands them back (dicts keyed by strings,
      lists, numbers, strings, [None]);
    - an explicit [world] holding everything the script does not control
      (local AWS configuration, the wall clock, what the S3 and CloudWatch
      endpoints answer);
    - a state-and-exception monad [Run] whose state records the trace of
      observable events (log records, API calls, printed output).

    Exceptions are values: [sys.exit] is the exception [SystemExit], and the
    exit status of the process is computed from the final outcome.

    The command-line parser and the progress animation wrapped around
    [query_bucket] are libraries outside the script: the embedding starts
    where the parser hands over the two options, and the trace holds what
    the script itself prints. *)

From Stdlib Require Import ZArith String Ascii List Bool Lia DecimalString.
From Stdlib Require Import Floats.SpecFloat.
From Stdlib Require Import Sorting.Permutation.
Import ListNotations.

Open Scope string_scope.
Open Scope Z_scope.

Set Warnings "-register-all".

(** ** Python values and exceptions *)

Module Py.

(** Values found in parsed SDK responses and in the script's locals.
    Floats are IEEE binary64 numbers in the Standard Library's
    specification format; dicts are keyed by [str], as every response
    parsed by the SDK is. *)
Inductive value : Type :=
| VNone
| VBool (b : bool)
| VInt (z : Z)
| VFloat (f : spec_float)
| VStr (s : string)
| VList (items : list value)
| VDict (entries : list (string * value)).

Inductive exn : Type :=
| KeyError
| IndexError
| TypeError
| ValueError
| OverflowError
| ZeroDivisionError
| SystemExit (code : Z)
| ProfileNotFound (profile : string)
| BotoError (name : string).

Inductive result (A : Type) : Type :=
| Ret (a : A)
| Raise (e : exn).

Arguments Ret {A} a.
Arguments Raise {A} e.

Definition rbind {A B} (r : result A) (k : A -> result B) : result B :=
  match r with
  | Ret a => k a
  | Raise e => Raise e
  end.

(** [try: body  except: fallback] with a bare [except], around a body
    without side effects: every exception is replaced by the fallback. *)
Definition try_except_all {A} (body : result A) (fallback : A) : A :=
  match body with
  | Ret a => a
  | Raise _ => fallback
  end.

Fixpoint dict_get (d : list (string * value)) (k : string) : option value :=
  match d with
  | [] => None
  | (k', v) :: rest => if String.eqb k' k then Some v else dict_get rest k
  end.

Fixpoint dict_set {V} (d : list (string * V)) (k : string) (v : V)
  : list (string * V) :=
  match d with
  | [] => [(k, v)]
  | (k', v') :: rest =>
      if String.eqb k' k then (k', v) :: rest else (k', v') :: dict_set rest k v
  end.

(** [seq[i]] for a Python sequence of length [length l]: negative indices
    count from the end, anything out of range is an IndexError. *)
Definition seq_index {A} (l : list A) (i : Z) : result A :=
  let n := Z.of_nat (length l) in
  let j := if i <? 0 then i + n else i in
  if (0 <=? j) && (j <? n) then
    match nth_error l (Z.to_nat j) with
    | Some a => Ret a
    | None => Raise IndexError
    end
  else Raise IndexError.

Definition chars (s : string) : list value :=
  map (fun c => VStr (String c EmptyString)) (list_ascii_of_string s).

(** [v[k]] with a string key. *)
Definition getitem_str (v : value) (k : string) : result value :=
  match v with
  | VDict d =>
      match dict_get d k with
      | Some x => Ret x
      | None => Raise KeyError
      end
  | _ => Raise TypeError
  end.

(** [v[i]] with an integer index.  A dict has only string keys, so an
    integer key is never found. *)
Definition getitem_int (v : value) (i : Z) : result value :=
  match v with
  | VList l => seq_index l i
  | VStr s => seq_index (chars s) i
  | VDict _ => Raise KeyError
  | _ => Raise TypeError
  end.

(** The items a [for] loop visits. *)
Definition iter (v : value) : result (list value) :=
  match v with
  | VList l => Ret l
  | VStr s => Ret (chars s)
  | VDict d => Ret (map (fun kv => VStr (fst kv)) d)
  | _ => Raise TypeError
  end.

(** *** [int(x)] *)

Definition is_space (c : ascii) : bool :=
  let n := Z.of_nat (nat_of_ascii c) in
  ((9 <=? n) && (n <=? 13)) || ((28 <=? n) && (n <=? 32))
  || (n =? 133) || (n =? 160).

Fixpoint lstrip (s : string) : string :=
  match s with
  | String c rest => if is_space c then lstrip rest else s
  | EmptyString => EmptyString
  end.

Fixpoint rstrip (s : string) : string :=
  match s with
  | String c rest =>
      match rstrip rest with
      | EmptyString => if is_space c then EmptyString else String c EmptyString
      | rest' => String c rest'
      end
  | EmptyString => EmptyString
  end.

Definition digit_of (c : ascii) : option Z :=
  let n := Z.of_nat (nat_of_ascii c) in
  if (48 <=? n) && (n <=? 57) then Some (n - 48) else None.

(** Decimal digits, single underscores allowed between two digits. *)
Fixpoint parse_digits (s : string) (acc : Z) (after_digit : bool) : option Z :=
  match s with
  | EmptyString => if after_digit then Some acc else None
  | String c rest =>
      match digit_of c with
      | Some d => parse_digits rest (10 * acc + d) true
      | None =>
          if Ascii.eqb c "_" && after_digit then parse_digits rest acc false
          else None
      end
  end.

(** [int(s)] on text: surrounding white space, an optional sign, decimal
    digits.  Characters are Latin-1; the interpreter's configurable cap on
    the number of digits is left out. *)
Definition int_of_str (s : string) : result Z :=
  let body := rstrip (lstrip s) in
  let '(neg, digits) :=
    match body with
    | String "-" rest => (true, rest)
    | String "+" rest => (false, rest)
    | _ => (false, body)
    end in
  match parse_digits digits 0 false with
  | Some n => Ret (if neg then - n else n)
  | None => Raise ValueError
  end.

(** Truncation toward zero of a float. *)
Definition int_of_float (f : spec_float) : result Z :=
  match f with
  | S754_zero _ => Ret 0
  | S754_infinity _ => Raise OverflowError
  | S754_nan => Raise ValueError
  | S754_finite s m e =>
      let mag := if 0 <=? e then Z.shiftl (Zpos m) e else Z.shiftr (Zpos m) (- e) in
      Ret (if s then - mag else mag)
  end.

Definition int (v : value) : result Z :=
  match v with
  | VInt z => Ret z
  | VBool b => Ret (if b then 1 else 0)
  | VFloat f => int_of_float f
  | VStr s => int_of_str s
  | VNone | VList _ | VDict _ => Raise TypeError
  end.

(** *** Arithmetic and formatting used by the summary lines *)

Definition prec : Z := 53.
Definition emax : Z := 1024.

Definition float_of_Z_exact (z : Z) : spec_float :=
  match z with
  | Z0 => S754_zero false
  | Zpos p => S754_finite false p 0
  | Zneg p => S754_finite true p 0
  end.

Definition is_infinite (f : spec_float) : bool :=
  match f with
  | S754_infinity _ => true
  | _ => false
  end.

(** [a / b] on two ints: the exact quotient rounded once to binary64;
    a quotient too large for a float is an OverflowError. *)
Definition int_truediv (a b : Z) : result spec_float :=
  if b =? 0 then Raise ZeroDivisionError
  else
    let q := SFdiv prec emax (float_of_Z_exact a) (float_of_Z_exact b) in
    if is_infinite q then Raise OverflowError else Ret q.

(** [x / b] with a float [x] and an int [b]: [b] is converted to a float
    first, then divided in binary64. *)
Definition float_truediv_int (x : spec_float) (b : Z) : result spec_float :=
  let fb := binary_normalize prec emax b 0 false in
  if is_infinite fb then Raise OverflowError
  else if b =? 0 then Raise ZeroDivisionError
  else Ret (SFdiv prec emax x fb).

(** [str(n)] for an int. *)
Definition str_of_Z (n : Z) : string := NilZero.string_of_int (Z.to_int n).

Definition digit_char (d : Z) : ascii := ascii_of_nat (Z.to_nat (48 + d)).

(** [num / den] rounded to the nearest integer, ties to even. *)
Definition div_half_even (num den : Z) : Z :=
  let q := num / den in
  let r := num mod den in
  match 2 * r ?= den with
  | Lt => q
  | Gt => q + 1
  | Eq => if Z.even q then q else q + 1
  end.

(** The text of [hundredths / 100] with two decimals. *)
Definition fixed_2 (neg : bool) (hundredths : Z) : string :=
  (if neg then "-" else "")
  ++ str_of_Z (hundredths / 100) ++ "."
  ++ String (digit_char (hundredths mod 100 / 10))
       (String (digit_char (hundredths mod 10)) EmptyString).

(** [format(x, ".2f")]: the exact value of [x] rounded to hundredths,
    ties to even. *)
Definition format_2f (x : spec_float) : string :=
  match x with
  | S754_nan => "nan"
  | S754_infinity s => if s then "-inf" else "inf"
  | S754_zero s => fixed_2 s 0
  | S754_finite s m e =>
      fixed_2 s
        (if 0 <=? e then Z.shiftl (Zpos m * 100) e
         else div_half_even (Zpos m * 100) (Z.shiftl 1 (- e)))
  end.

End Py.

Import Py.

(** ** The world outside the script, the trace, and the [Run] monad *)

(** The keyword arguments of one [get_metric_statistics] call.  Times are
    microseconds on the local clock. *)
Record metric_request : Type := {
  Namespace : string;
  Dimensions : value;
  MetricName : string;
  StartTime : Z;
  EndTime : Z;
  Period : Z;
  Statistics : list string
}.

(** [prettytable.PrettyTable]: the column names, the alignment dict and the
    rows added so far.  Rendering is the library's business; the trace keeps
    the table that was handed to [get_string]. *)
Record PrettyTable : Type := {
  field_names : list string;
  align : list (string * string);
  rows : list (list value)
}.

Inductive event : Type :=
| EvLogError (msg : string)
| EvListBuckets (answer : result value)
| EvGetMetricStatistics (req : metric_request) (answer : result value)
| EvPrint (text : string)
| EvPrintTable (title : string) (table : PrettyTable).

(** What the script cannot decide: the home directory as the environment
    gives it (the value of [HOME]), the profiles of the
    local AWS configuration, the readings of [datetime.now()] in the order
    they are taken, the answer of S3 to [list_buckets] and the answer of
    CloudWatch to the n-th [get_metric_statistics] call. *)
Record world : Type := {
  home : string;
  profiles : list string;
  now : nat -> Z;
  s3_list_buckets : result value;
  cloudwatch : nat -> metric_request -> result value
}.

Record state : Type := {
  trace : list event;
  clock_reads : nat;
  cw_calls : nat
}.

Definition initial : state := {| trace := []; clock_reads := 0; cw_calls := 0 |}.

Definition Run (A : Type) : Type := world -> state -> result A * state.

Definition ret {A} (a : A) : Run A := fun _ st => (Ret a, st).

Definition raise {A} (e : exn) : Run A := fun _ st => (Raise e, st).

Definition lift {A} (r : result A) : Run A := fun _ st => (r, st).

Definition bind {A B} (c : Run A) (k : A -> Run B) : Run B :=
  fun w st =>
    match c w st with
    | (Ret a, st1) => k a w st1
    | (Raise e, st1) => (Raise e, st1)
    end.

Declare Scope run_scope.
Delimit Scope run_scope with run.
Notation "x <- c ;; k" := (bind c (fun x => k))
  (at level 61, c at next level, right associativity) : run_scope.
Notation "c ;; k" := (bind c (fun _ => k))
  (at level 61, right associativity) : run_scope.
Open Scope run_scope.

(** [try: c  except <class> as e: handler e]; the handler says which
    exceptions it takes. *)
Definition try_except {A} (c : Run A) (handler : exn -> option (Run A)) : Run A :=
  fun w st =>
    match c w st with
    | (Ret a, st1) => (Ret a, st1)
    | (Raise e, st1) =>
        match handler e with
        | Some h => h w st1
        | None => (Raise e, st1)
        end
    end.

Definition emit (e : event) : Run unit :=
  fun _ st =>
    (Ret tt, {| trace := (trace st ++ [e])%list;
                clock_reads := clock_reads st;
                cw_calls := cw_calls st |}).

Definition print (text : string) : Run unit := emit (EvPrint text).

Definition sys_exit {A} (code : Z) : Run A := raise (SystemExit code).

(** [datetime.now()] *)
Definition datetime_now : Run Z :=
  fun w st =>
    (Ret (now w (clock_reads st)),
     {| trace := trace st;
        clock_reads := S (clock_reads st);
        cw_calls := cw_calls st |}).

(** [timedelta(days)] in microseconds. *)
Definition timedelta (days : Z) : Z := days * 86400 * 1000000.

(** The exit status the operating system sees: 0 after a normal return,
    the low byte of the code of a [SystemExit], 1 after any other uncaught
    exception. *)
Definition exit_status {A} (r : result A) : Z :=
  match r with
  | Ret _ => 0
  | Raise (SystemExit code) => code mod 256
  | Raise _ => 1
  end.

Definition is_network (e : event) : bool :=
  match e with
  | EvListBuckets _ | EvGetMetricStatistics _ _ => true
  | _ => false
  end.

Definition nl : string := String (ascii_of_nat 10) EmptyString.

(** ** class AwsSession *)

Module AwsSession.

Record t : Type := {
  profile : option string;
  region : string;
  authentication : string
}.

(** A [boto3.Session] with the cache installed on its assume-role
    credential provider: [profile_name] and [region_name] are the keyword
    arguments the session was made with. *)
Record Session : Type := {
  profile_name : option string;
  region_name : string;
  assume_role_cache : option string
}.

Definition default_region : string := "ap-southeast-2".
Definition default_authentication : string := "sso".

(** [self._instance_logger.error(msg)] *)
Definition logger_error (msg : string) : Run unit := emit (EvLogError msg).

(** [self._instance_logger(e)]: a [logging.Logger] has no [__call__],
    so applying it raises TypeError. *)
Definition logger_call (e : exn) : Run unit := raise TypeError.

Definition __init__ (profile : option string) (region authentication : string)
  : Run t :=
  if String.eqb authentication "sso" || String.eqb authentication "cli" then
    ret {| profile := profile; region := region; authentication := authentication |}
  else
    logger_error "Allowed values for authentication variable are sso or cli." ;;
    sys_exit (-1).

(** [Session(profile_name=..., region_name=...)]: a profile that is named
    must exist in the local configuration; with no name the default
    settings are taken, whether or not a default profile is written down. *)
Definition boto3_Session (profile_name : option string) (region_name : string)
  : Run Session :=
  fun w st =>
    let made :=
      {| profile_name := profile_name;
         region_name := region_name;
         assume_role_cache := None |} in
    match profile_name with
    | Some p =>
        if existsb (String.eqb p) (profiles w) then (Ret made, st)
        else (Raise (ProfileNotFound p), st)
    | None => (Ret made, st)
    end.

Fixpoint ends_with_slash (s : string) : bool :=
  match s with
  | EmptyString => false
  | String c EmptyString => Ascii.eqb c "/"
  | String _ rest => ends_with_slash rest
  end.

(** [os.path.join(a, b)] on POSIX. *)
Definition os_path_join (a b : string) : string :=
  match b with
  | String "/" _ => b
  | _ =>
      match a with
      | EmptyString => b
      | _ => if ends_with_slash a then a ++ b else a ++ "/" ++ b
      end
  end.

(** [s.rstrip('/')] *)
Fixpoint rstrip_slash (s : string) : string :=
  match s with
  | EmptyString => EmptyString
  | String c rest =>
      match rstrip_slash rest with
      | EmptyString => if Ascii.eqb c "/" then EmptyString else String c EmptyString
      | kept => String c kept
      end
  end.

(** [os.path.expanduser('~')] on POSIX, for the home directory the
    environment gives: [home.rstrip('/') or '/']. *)
Definition expanduser_tilde (home : string) : string :=
  match rstrip_slash home with
  | EmptyString => "/"
  | h => h
  end.

Definition expanduser_home : Run string :=
  fun w st => (Ret (expanduser_tilde (home w)), st).

Definition cli (self : t) : Run Session :=
  let cache := ".aws/" ++ authentication self ++ "/cache" in
  h <- expanduser_home ;;
  let cli_cache := os_path_join h cache in
  cli_session <-
    try_except (boto3_Session (profile self) (region self))
      (fun e =>
         match e with
         | ProfileNotFound _ => Some (logger_call e ;; sys_exit (-1))
         | _ => None
         end) ;;
  ret {| profile_name := profile_name cli_session;
         region_name := region_name cli_session;
         assume_role_cache := Some cli_cache |}.

End AwsSession.

(** A service client made by [session.client(service)]. *)
Record boto_client : Type := {
  service : string;
  session : AwsSession.Session
}.

Definition session_client (s : AwsSession.Session) (name : string) : boto_client :=
  {| service := name; session := s |}.

(** ** class CwMetric *)

Module CwMetric.

Record t : Type := { client : boto_client }.

Definition __init__ (client : boto_client) : t := {| client := client |}.

(** [self.client.get_metric_statistics] with the keyword arguments
    [req]: the n-th call is answered by the world; the call and its answer
    enter the trace. *)
Definition client_get_metric_statistics (c : boto_client) (req : metric_request)
  : Run value :=
  fun w st =>
    let answer := cloudwatch w (cw_calls st) req in
    (answer,
     {| trace := (trace st ++ [EvGetMetricStatistics req answer])%list;
        clock_reads := clock_reads st;
        cw_calls := S (cw_calls st) |}).

Definition sample (v u : value) : value := VDict [("Value", v); ("Unit", u)].

Definition fallback : value := sample (VInt 0) VNone.

(** The [try] block of [get_s3_metric]. *)
Definition first_datapoint (result : value) (statistic : string) : Py.result value :=
  rbind (rbind (rbind (getitem_str result "Datapoints")
                      (fun dps => getitem_int dps 0))
               (fun dp => getitem_str dp statistic))
    (fun v =>
       rbind (rbind (rbind (getitem_str result "Datapoints")
                           (fun dps => getitem_int dps 0))
                    (fun dp => getitem_str dp "Unit"))
         (fun u => Ret (sample v u))).

(** The [Dimensions] argument of the query. *)
Definition dimensions (bucket : value) (stg_type : string) : value :=
  VList [VDict [("Name", VStr "BucketName"); ("Value", bucket)];
         VDict [("Name", VStr "StorageType"); ("Value", VStr stg_type)]].

Definition get_s3_metric (self : t) (bucket : value) (metric stg_type : string)
  (statistic : string) : Run value :=
  start <- datetime_now ;;
  stop <- datetime_now ;;
  result <-
    client_get_metric_statistics (client self)
      {| Namespace := "AWS/S3";
         Dimensions := dimensions bucket stg_type;
         MetricName := metric;
         StartTime := start - timedelta 2;
         EndTime := stop;
         Period := 86400;
         Statistics := [statistic] |} ;;
  ret (try_except_all (first_datapoint result statistic) fallback).

Definition get_bucket_size (self : t) (bucket : value) : Run value :=
  get_s3_metric self bucket "BucketSizeBytes" "StandardStorage" "Sum".

Definition get_bucket_object_count (self : t) (bucket : value) : Run value :=
  get_s3_metric self bucket "NumberOfObjects" "AllStorageTypes" "Sum".

End CwMetric.

(** ** The [query_bucket] command *)

(** [for x in items: acc = body x acc] *)
Fixpoint for_each {A S} (items : list A) (body : A -> S -> Run S) (acc : S) : Run S :=
  match items with
  | [] => ret acc
  | x :: rest => acc' <- body x acc ;; for_each rest body acc'
  end.

Module Table.

(** [PrettyTable(field_names)]: every column starts centred. *)
Definition new (fields : list string) : PrettyTable :=
  {| field_names := fields;
     align := map (fun f => (f, "c")) fields;
     rows := [] |}.

(** [pt.align[field] = a] *)
Definition set_align (pt : PrettyTable) (field a : string) : PrettyTable :=
  {| field_names := field_names pt;
     align := dict_set (align pt) field a;
     rows := rows pt |}.

(** [pt.add_row(row)]: a row must have one value per column. *)
Definition add_row (pt : PrettyTable) (row : list value) : result PrettyTable :=
  if Nat.eqb (length row) (length (field_names pt)) then
    Ret {| field_names := field_names pt;
           align := align pt;
           rows := (rows pt ++ [row])%list |}
  else Raise ValueError.

End Table.

(** [if bucket:] on the value of the [--bucket] option. *)
Definition truthy (bucket : option string) : bool :=
  match bucket with
  | Some (String _ _) => true
  | _ => false
  end.

(** [s3_client.list_buckets()] *)
Definition client_list_buckets (c : boto_client) : Run value :=
  fun w st =>
    let answer := s3_list_buckets w in
    (answer,
     {| trace := (trace st ++ [EvListBuckets answer])%list;
        clock_reads := clock_reads st;
        cw_calls := cw_calls st |}).

(** Lines 151 to 158: the buckets to report on. *)
Definition select_buckets (session : AwsSession.Session) (bucket : option string)
  : Run (list value) :=
  if truthy bucket then
    ret [VStr (match bucket with Some b => b | None => "" end)]
  else
    let s3_client := session_client session "s3" in
    s3_buckets <- client_list_buckets s3_client ;;
    listed <- lift (getitem_str s3_buckets "Buckets") ;;
    items <- lift (iter listed) ;;
    for_each items
      (fun b buckets => name <- lift (getitem_str b "Name") ;; ret (buckets ++ [name])%list)
      [].

Definition columns : list string := ["Bucket name"; "Size [Bytes]"; "Object count"].

(** What the report loop carries from one bucket to the next. *)
Record report : Type := {
  pt : PrettyTable;
  bytes_sum : Z;
  count_sum : Z
}.

(** Lines 165 to 176: the body of the report loop. *)
Definition report_bucket (cw : CwMetric.t) (b : value) (acc : report) : Run report :=
  let pt1 := Table.set_align (pt acc) "Bucket name" "l" in
  let pt2 := Table.set_align pt1 "Size [Bytes]" "r" in
  let pt3 := Table.set_align pt2 "Object count" "r" in
  size <- CwMetric.get_bucket_size cw b ;;
  size_value <- lift (getitem_str size "Value") ;;
  count <- CwMetric.get_bucket_object_count cw b ;;
  count_value <- lift (getitem_str count "Value") ;;
  pt4 <- lift (Table.add_row pt3 [b; size_value; count_value]) ;;
  size' <- CwMetric.get_bucket_size cw b ;;
  size_value' <- lift (getitem_str size' "Value") ;;
  size_int <- lift (int size_value') ;;
  count' <- CwMetric.get_bucket_object_count cw b ;;
  count_value' <- lift (getitem_str count' "Value") ;;
  count_int <- lift (int count_value') ;;
  ret {| pt := pt4;
         bytes_sum := bytes_sum acc + size_int;
         count_sum := count_sum acc + count_int |}.

(** [bytes_sum / 1024 / 1024 / 1024] *)
Definition gib (bytes_sum : Z) : result spec_float :=
  rbind (rbind (int_truediv bytes_sum 1024)
               (fun x => float_truediv_int x 1024))
        (fun x => float_truediv_int x 1024).

Definition query_bucket (profile bucket : option string) : Run unit :=
  self <- AwsSession.__init__ profile AwsSession.default_region
            AwsSession.default_authentication ;;
  session <- AwsSession.cli self ;;
  let cw_client := session_client session "cloudwatch" in
  let cw := CwMetric.__init__ cw_client in
  buckets <- select_buckets session bucket ;;
  final <- for_each buckets (report_bucket cw)
             {| pt := Table.new columns; bytes_sum := 0; count_sum := 0 |} ;;
  print nl ;;
  emit (EvPrintTable "S3 bucket metrics" (pt final)) ;;
  print (nl ++ "Grand total:" ++ nl) ;;
  storage <- lift (gib (bytes_sum final)) ;;
  print ("Storage space used (GB).: " ++ format_2f storage) ;;
  print ("Objects count...........: " ++ str_of_Z (count_sum final)).

(** ** Reading a trace *)

(** The CloudWatch queries of a trace, in order: the dimensions and the
    metric name of each. *)
Definition queries (tr : list event) : list (value * string) :=
  flat_map (fun e =>
              match e with
              | EvGetMetricStatistics req _ => [(Dimensions req, MetricName req)]
              | _ => []
              end) tr.

Definition size_query (b : value) : value * string :=
  (CwMetric.dimensions b "StandardStorage", "BucketSizeBytes").

Definition count_query (b : value) : value * string :=
  (CwMetric.dimensions b "AllStorageTypes", "NumberOfObjects").

(** The data point a response offers for a statistic: the response is a
    dict whose ["Datapoints"] is a list that starts with a dict holding
    both the statistic and ["Unit"]. *)
Definition usable_datapoint (response : value) (statistic : string)
  : option (value * value) :=
  match response with
  | VDict d =>
      match dict_get d "Datapoints" with
      | Some (VList (VDict dp :: _)) =>
          match dict_get dp statistic, dict_get dp "Unit" with
          | Some v, Some u => Some (v, u)
          | _, _ => None
          end
      | _ => None
      end
  | _ => None
  end.

(** The sample the gateway makes of a response. *)
Definition sample_of (response : value) (statistic : string) : value :=
  match usable_datapoint response statistic with
  | Some (v, u) => CwMetric.sample v u
  | None => CwMetric.fallback
  end.

(** Its ["Value"]. *)
Definition reading_of (response : value) : value :=
  match usable_datapoint response "Sum" with
  | Some (v, _) => v
  | None => VInt 0
  end.

(** The readings the gateway took from the answered queries of a trace. *)
Definition readings (tr : list event) : list value :=
  flat_map (fun e =>
              match e with
              | EvGetMetricStatistics _ (Ret response) => [reading_of response]
              | _ => []
              end) tr.

(** The rows a bucket sequence gets from the readings taken for it, four
    per bucket: the first two are shown. *)
Fixpoint rows_of (buckets : list value) (rs : list value) : list (list value) :=
  match buckets, rs with
  | b :: buckets', size :: count :: _ :: _ :: rs' =>
      [b; size; count] :: rows_of buckets' rs'
  | _, _ => []
  end.

(** The totals of the same readings: the last two of every four are
    converted with [int] and added. *)
Fixpoint sums_of (rs : list value) : result (Z * Z) :=
  match rs with
  | _ :: _ :: size :: count :: rs' =>
      rbind (int size) (fun n =>
      rbind (int count) (fun m =>
      rbind (sums_of rs') (fun '(bytes, objects) =>
      Ret (n + bytes, m + objects))))
  | _ => Ret (0, 0)
  end.

(** The totals of what a table shows: [int] of the second and third cell
    of every row. *)
Fixpoint shown_sums (rws : list (list value)) : result (Z * Z) :=
  match rws with
  | [_; size; count] :: rws' =>
      rbind (int size) (fun n =>
      rbind (int count) (fun m =>
      rbind (shown_sums rws') (fun '(bytes, objects) =>
      Ret (n + bytes, m + objects))))
  | _ => Ret (0, 0)
  end.

(** The second fetch of each metric read what the first did: of every
    four readings the third is the first again and the fourth the second. *)
Fixpoint refetched_alike (rs : list value) : Prop :=
  match rs with
  | size :: count :: size' :: count' :: rs' =>
      size' = size /\ count' = count /\ refetched_alike rs'
  | _ => True
  end.

Definition first_cell (row : list value) : value := hd VNone row.

(** The request and the state of the next gateway call. *)
Definition request_at (w : world) (st : state) (bucket : value)
  (metric stg_type statistic : string) : metric_request :=
  {| Namespace := "AWS/S3";
     Dimensions := CwMetric.dimensions bucket stg_type;
     MetricName := metric;
     StartTime := now w (clock_reads st) - timedelta 2;
     EndTime := now w (S (clock_reads st));
     Period := 86400;
     Statistics := [statistic] |}.

Definition after_call (st : state) (req : metric_request) (answer : result value)
  : state :=
  {| trace := (trace st ++ [EvGetMetricStatistics req answer])%list;
     clock_reads := S (S (clock_reads st));
     cw_calls := S (cw_calls st) |}.

(** The session can be created: a profile that is named is configured. *)
Definition configured (w : world) (profile : option string) : Prop :=
  match profile with
  | Some p => In p (profiles w)
  | None => True
  end.

(** CloudWatch answers every query, and [int] accepts every reading. *)
Definition answers_numbers (w : world) : Prop :=
  forall n req, exists response z,
    cloudwatch w n req = Ret response /\ int (reading_of response) = Ret z.

(** CloudWatch answers alike whenever it is asked about the same
    dimensions and metric, whenever that is. *)
Definition steady (w : world) : Prop :=
  forall n n' req req',
    Dimensions req = Dimensions req' ->
    MetricName req = MetricName req' ->
    cloudwatch w n req = cloudwatch w n' req'.

Definition is_query (e : event) : bool :=
  match e with
  | EvGetMetricStatistics _ _ => true
  | _ => false
  end.

Definition is_answered (e : event) : bool :=
  match e with
  | EvGetMetricStatistics _ (Ret _) => true
  | _ => false
  end.

Definition is_table (e : event) : bool :=
  match e with
  | EvPrintTable _ _ => true
  | _ => false
  end.

Definition is_listing (e : event) : bool :=
  match e with
  | EvListBuckets _ => true
  | _ => false
  end.

(** The queries the report loop makes for one bucket. *)
Definition four_queries (b : value) : list (value * string) :=
  [size_query b; count_query b; size_query b; count_query b].

(** The names of the listed buckets, in the order of the listing. *)
Fixpoint names_of (items : list value) : result (list value) :=
  match items with
  | [] => Ret []
  | item :: rest =>
      rbind (getitem_str item "Name") (fun name =>
      rbind (names_of rest) (fun names => Ret (name :: names)))
  end.

Definition listed_buckets (w : world) : result (list value) :=
  rbind (s3_list_buckets w) (fun response =>
  rbind (getitem_str response "Buckets") (fun listed =>
  rbind (iter listed) names_of)).

(** The bucket sequence of a run: the one bucket named on the command
    line, or else the listing. *)
Definition working_set (w : world) (bucket : option string) : result (list value) :=
  match bucket with
  | Some (String c rest) => Ret [VStr (String c rest)]
  | _ => listed_buckets w
  end.

Definition after_selection (w : world) (bucket : option string) (st : state) : state :=
  if truthy bucket then st
  else {| trace := (trace st ++ [EvListBuckets (s3_list_buckets w)])%list;
          clock_reads := clock_reads st;
          cw_calls := cw_calls st |}.

(** The session and the gateway [query_bucket] works with. *)
Definition the_session (w : world) (profile : option string) : AwsSession.Session :=
  {| AwsSession.profile_name := profile;
     AwsSession.region_name := AwsSession.default_region;
     AwsSession.assume_role_cache :=
       Some (AwsSession.os_path_join (AwsSession.expanduser_tilde (home w))
               ".aws/sso/cache") |}.

Definition the_gateway (w : world) (profile : option string) : CwMetric.t :=
  CwMetric.__init__ (session_client (the_session w profile) "cloudwatch").

Definition start : report :=
  {| pt := Table.new columns; bytes_sum := 0; count_sum := 0 |}.

(** Lines 160 to 182 of [query_bucket], from the report loop on. *)
Definition report_and_print (cw : CwMetric.t) (buckets : list value) : Run unit :=
  final <- for_each buckets (report_bucket cw) start ;;
  print nl ;;
  emit (EvPrintTable "S3 bucket metrics" (pt final)) ;;
  print (nl ++ "Grand total:" ++ nl) ;;
  storage <- lift (gib (bytes_sum final)) ;;
  print ("Storage space used (GB).: " ++ format_2f storage) ;;
  print ("Objects count...........: " ++ str_of_Z (count_sum final)).

(** What the run prints once the loop is over. *)
Definition heading (table : PrettyTable) : list event :=
  [EvPrint nl;
   EvPrintTable "S3 bucket metrics" table;
   EvPrint (nl ++ "Grand total:" ++ nl)].

Definition totals (storage : spec_float) (objects : Z) : list event :=
  [EvPrint ("Storage space used (GB).: " ++ format_2f storage);
   EvPrint ("Objects count...........: " ++ str_of_Z objects)].

(** ** Worlds used in the examples *)

Module Examples.

Definition f64 (z : Z) : value := VFloat (binary_normalize prec emax z 0 false).

Definition datapoints (points : list value) : value :=
  VDict [("Label", VStr "metric"); ("Datapoints", VList points)].

Definition point (v : value) (unit : string) : value :=
  VDict [("Timestamp", VStr "2024-01-01T00:00:00Z"); ("Sum", v); ("Unit", VStr unit)].

Definition dimension (req : metric_request) (i : Z) : value :=
  try_except_all
    (rbind (getitem_int (Dimensions req) i) (fun d => getitem_str d "Value"))
    VNone.

Definition bucket_is (req : metric_request) (name : string) : bool :=
  match dimension req 0 with
  | VStr b => String.eqb b name
  | _ => false
  end.

(** An account with buckets a and b: 1024 and 2048 bytes, 5 and 10
    objects; any other bucket has no data points. *)
Definition cw_ab (n : nat) (req : metric_request) : result value :=
  let size := String.eqb (MetricName req) "BucketSizeBytes" in
  if bucket_is req "a" then
    Ret (datapoints [if size then point (f64 1024) "Bytes" else point (f64 5) "Count"])
  else if bucket_is req "b" then
    Ret (datapoints [if size then point (f64 2048) "Bytes" else point (f64 10) "Count"])
  else Ret (datapoints []).

Definition listing (names : list string) : value :=
  VDict [("Buckets",
          VList (map (fun n => VDict [("Name", VStr n);
                                      ("CreationDate", VStr "2020-05-17")]) names));
         ("Owner", VDict [("ID", VStr "0123")])].

Definition world_ab : world :=
  {| home := "/home/ops";
     profiles := ["default"; "prod"];
     now := fun k => 1700000000000000 + Z.of_nat k;
     s3_list_buckets := Ret (listing ["a"; "b"]);
     cloudwatch := cw_ab |}.

(** The same account behind a network that is down for CloudWatch. *)
Definition world_down : world :=
  {| home := "/home/ops";
     profiles := ["default"; "prod"];
     now := fun k => 1700000000000000 + Z.of_nat k;
     s3_list_buckets := Ret (listing ["a"; "b"]);
     cloudwatch := fun _ _ => Raise (BotoError "EndpointConnectionError") |}.

(** An account without buckets. *)
Definition world_empty : world :=
  {| home := "/home/ops";
     profiles := ["default"];
     now := fun k => 1700000000000000 + Z.of_nat k;
     s3_list_buckets := Ret (listing []);
     cloudwatch := fun _ _ => Ret (datapoints []) |}.

(** A bucket whose size reading is 1536.75 and whose object count is 7. *)
Definition f64_frac : value := VFloat (S754_finite false 6147 (-2)).

Definition world_frac : world :=
  {| home := "/home/ops";
     profiles := ["default"; "prod"];
     now := fun k => 1700000000000000 + Z.of_nat k;
     s3_list_buckets := Ret (listing ["logs"]);
     cloudwatch := fun _ req =>
       Ret (datapoints
              [if String.eqb (MetricName req) "BucketSizeBytes"
               then point f64_frac "Bytes" else point (f64 7) "Count"]) |}.

(** The same bucket with the two daily data points of the window, which
    CloudWatch lists in one order up to its second call and in the other
    order from the third call on. *)
Definition world_drift : world :=
  {| home := "/home/ops";
     profiles := ["default"; "prod"];
     now := fun k => 1700000000000000 + Z.of_nat k;
     s3_list_buckets := Ret (listing ["logs"]);
     cloudwatch := fun n req =>
       let size := String.eqb (MetricName req) "BucketSizeBytes" in
       let day1 := if size then point f64_frac "Bytes" else point (f64 7) "Count" in
       let day2 := if size then point (f64 2) "Bytes" else point (f64 3) "Count" in
       Ret (datapoints (if (n <? 2)%nat then [day1; day2] else [day2; day1])) |}.

(** A bucket whose data points carry a statistic that is not a number. *)
Definition world_nan : world :=
  {| home := "/home/ops";
     profiles := ["default"; "prod"];
     now := fun k => 1700000000000000 + Z.of_nat k;
     s3_list_buckets := Ret (listing ["logs"]);
     cloudwatch := fun _ _ => Ret (datapoints [point (VFloat S754_nan) "Bytes"]) |}.

Definition gateway : CwMetric.t := the_gateway world_ab (Some "prod").

(** The runs the witnesses look at. *)
Definition run_ab : result unit * state :=
  query_bucket (Some "prod") None world_ab initial.

Definition run_frac : result unit * state :=
  query_bucket (Some "prod") (Some "logs") world_frac initial.

End Examples.

(** The tables a trace shows. *)
Definition tables (tr : list event) : list PrettyTable :=
  flat_map (fun e =>
              match e with
              | EvPrintTable _ table => [table]
              | _ => []
              end) tr.


(** CloudWatch answers every query and has no data point for any:
    what it does for a bucket that does not exist. *)
Definition no_data (w : world) : Prop :=
  forall n req, exists response,
    cloudwatch w n req = Ret response /\ usable_datapoint response "Sum" = None.

(** ** The display methods of CwMetric *)

Section Display.

(** [str(v)] on a value, which the f-string of [display_bucket_size]
    applies to the unit: the builtin is a parameter. *)
Variable str_of_value : value -> string.

Definition display_bucket_size (self : CwMetric.t) (bucket : string) : Run unit :=
  size <- CwMetric.get_bucket_size self (VStr bucket) ;;
  size_value <- lift (getitem_str size "Value") ;;
  size_int <- lift (int size_value) ;;
  size_unit <- lift (getitem_str size "Unit") ;;
  print (bucket ++ ": " ++ str_of_Z size_int ++ " " ++ str_of_value size_unit).

Definition display_object_count (self : CwMetric.t) (bucket : string) : Run unit :=
  count <- CwMetric.get_bucket_object_count self (VStr bucket) ;;
  count_value <- lift (getitem_str count "Value") ;;
  count_int <- lift (int count_value) ;;
  print (bucket ++ ": " ++ str_of_Z count_int ++ " Object/s").

End Display.

(** The ["Unit"] of the sample the gateway makes of a response. *)
Definition unit_of (response : value) : value :=
  match usable_datapoint response "Sum" with
  | Some (_, u) => u
  | None => VNone
  end.

(** ** More ways to read a run *)

(** What the script writes to standard output. *)
Definition is_output (e : event) : bool :=
  match e with
  | EvPrint _ | EvPrintTable _ _ => true
  | _ => false
  end.

(** The CloudWatch queries of a trace with their answers, in order. *)
Definition query_events (tr : list event) : list (metric_request * result value) :=
  flat_map (fun e =>
              match e with
              | EvGetMetricStatistics req answer => [(req, answer)]
              | _ => []
              end) tr.

(** The two metrics the script asks for, each with its storage type. *)
Definition metric_pairs : list (string * string) :=
  [("BucketSizeBytes", "StandardStorage"); ("NumberOfObjects", "AllStorageTypes")].

(** States reached from a state by calls of the gateway for the two
    metrics, one CloudWatch query each. *)
Inductive gateway_steps (w : world) (st : state) : state -> Prop :=
| steps_none : gateway_steps w st st
| steps_call st' b metric stg_type :
    gateway_steps w st st' ->
    In (metric, stg_type) metric_pairs ->
    gateway_steps w st
      (after_call st' (request_at w st' b metric stg_type "Sum")
         (cloudwatch w (cw_calls st') (request_at w st' b metric stg_type "Sum"))).

(** How a run of the report loop can end: every query answered, or the
    last query failed and its error is the outcome. *)
Definition raised {A} (r : result A) : option exn :=
  match r with
  | Ret _ => None
  | Raise e => Some e
  end.

Definition ends_with (err : option exn) (evs : list event) : Prop :=
  forallb is_answered evs = true
  \/ exists pre req e,
       evs = (pre ++ [EvGetMetricStatistics req (Raise e)])%list
       /\ forallb is_answered pre = true
       /\ err = Some e.

(** The k-th query of a run and its answer, as the script makes them. *)
Definition kth_query (w : world) (k : nat) (q : metric_request * result value) : Prop :=
  Namespace (fst q) = "AWS/S3"
  /\ Period (fst q) = 86400
  /\ Statistics (fst q) = ["Sum"]
  /\ (exists b stg_type,
        In (MetricName (fst q), stg_type) metric_pairs
        /\ Dimensions (fst q) = CwMetric.dimensions b stg_type)
  /\ StartTime (fst q) = now w (2 * k) - timedelta 2
  /\ EndTime (fst q) = now w (2 * k + 1)
  /\ snd q = cloudwatch w k (fst q).

(** The counters of a state agree with its trace, and every query in the
    trace is the script's. *)
Definition in_step (w : world) (st : state) : Prop :=
  cw_calls st = length (query_events (trace st))
  /\ clock_reads st = (2 * cw_calls st)%nat
  /\ forall k q, nth_error (query_events (trace st)) k = Some q -> kth_query w k q.

(** The clock never runs backwards. *)
Definition monotone_clock (w : world) : Prop :=
  forall i j, (i <= j)%nat -> now w i <= now w j.

(** A request with the given dimensions and metric, for asking a steady
    CloudWatch what it holds. *)
Definition probe (q : value * string) : metric_request :=
  {| Namespace := "AWS/S3";
     Dimensions := fst q;
     MetricName := snd q;
     StartTime := 0;
     EndTime := 0;
     Period := 86400;
     Statistics := ["Sum"] |}.

(** The integer a steady CloudWatch contributes for one query. *)
Definition steady_int (w : world) (q : value * string) : result Z :=
  rbind (cloudwatch w 0 (probe q)) (fun response => int (reading_of response)).

(** The sum of a contribution over the buckets, in order. *)
Fixpoint total_of (f : value -> result Z) (buckets : list value) : result Z :=
  match buckets with
  | [] => Ret 0
  | b :: rest =>
      rbind (f b) (fun n => rbind (total_of f rest) (fun s => Ret (n + s)))
  end.

(** The alignments the report loop sets. *)
Definition set_alignments (a : list (string * string)) : list (string * string) :=
  dict_set (dict_set (dict_set a "Bucket name" "l") "Size [Bytes]" "r")
    "Object count" "r".

(** The account of [world_ab] listed in the other order, with a home
    directory that ends in a slash and a clock that stands still. *)
Definition world_slash : world :=
  {| home := "/root/";
     profiles := ["default"; "prod"];
     now := fun _ => 1700000000000000;
     s3_list_buckets := Ret (Examples.listing ["b"; "a"]);
     cloudwatch := Examples.cw_ab |}.

(** A run of separators, and a world moved to another home directory. *)
Fixpoint slashes (n : nat) : string :=
  match n with
  | O => EmptyString
  | S n' => String "/" (slashes n')
  end.

Definition at_home (h : string) (w : world) : world :=
  {| home := h;
     profiles := profiles w;
     now := now w;
     s3_list_buckets := s3_list_buckets w;
     cloudwatch := cloudwatch w |}.

(** An account whose second bucket cannot be queried. *)
Definition world_flaky : world :=
  {| home := "/home/ops";
     profiles := ["default"; "prod"];
     now := fun k => 1700000000000000 + Z.of_nat k;
     s3_list_buckets := Ret (Examples.listing ["a"; "b"]);
     cloudwatch := fun n req =>
       if Examples.bucket_is req "b" then Raise (BotoError "Throttling")
       else Examples.cw_ab n req |}.

(** An account that cannot be listed. *)
Definition world_denied : world :=
  {| home := "/home/ops";
     profiles := ["default"; "prod"];
     now := fun k => 1700000000000000 + Z.of_nat k;
     s3_list_buckets := Raise (BotoError "AccessDenied");
     cloudwatch := Examples.cw_ab |}.

(** CloudWatch returning the two daily data points of the window, and
    CloudWatch returning a first data point without its unit. *)
Definition world_two : world :=
  {| home := "/home/ops";
     profiles := ["default"];
     now := fun k => 1700000000000000 + Z.of_nat k;
     s3_list_buckets := Ret (Examples.listing ["a"]);
     cloudwatch := fun _ _ =>
       Ret (Examples.datapoints
              [Examples.point (Examples.f64 7) "Count";
               Examples.point (Examples.f64 9) "Count"]) |}.

Definition world_no_unit : world :=
  {| home := "/home/ops";
     profiles := ["default"];
     now := fun k => 1700000000000000 + Z.of_nat k;
     s3_list_buckets := Ret (Examples.listing ["a"]);
     cloudwatch := fun _ _ =>
       Ret (Examples.datapoints
              [VDict [("Sum", Examples.f64 7)];
               Examples.point (Examples.f64 9) "Count"]) |}.

(** [str] on the values the examples print. *)
Definition str_example (v : value) : string :=
  match v with
  | VNone => "None"
  | VStr s => s
  | VInt z => str_of_Z z
  | _ => "?"
  end.

Ltac case_answer a e E :=
  match goal with
  | |- context [match cloudwatch ?w ?n ?r with _ => _ end] =>
      destruct (cloudwatch w n r) as [a | e] eqn:E
  end.

Ltac same_answer Hs E E' :=
  match type of E with
  | cloudwatch _ ?n ?r = _ =>
      match type of E' with
      | cloudwatch _ ?n' ?r' = _ =>
          let S := fresh "S" in
          pose proof (Hs n n' r r' eq_refl eq_refl) as S;
          rewrite E, E' in S; injection S as ->; reflexivity
      end
  end.

Ltac footprint_done :=
  intros [= <- <-]; cbn [after_call trace];
  repeat rewrite <- app_assoc; cbn [app];
  eexists; split; [reflexivity | reflexivity].

(** ** The monad *)

Section RunLemmas.

Context {A B : Type}.
Implicit Types (c : Run A) (k : A -> Run B).

Lemma bind_Ret c k w st a st1 :
  c w st = (Ret a, st1) -> bind c k w st = k a w st1.
Proof. intros H. unfold bind. rewrite H. reflexivity. Qed.

Lemma bind_Raise c k w st e st1 :
  c w st = (Raise e, st1) -> bind c k w st = (Raise e, st1).
Proof. intros H. unfold bind. rewrite H. reflexivity. Qed.

Lemma bind_inv c k w st b st' :
  bind c k w st = (Ret b, st') ->
  exists a st1, c w st = (Ret a, st1) /\ k a w st1 = (Ret b, st').
Proof.
  unfold bind. destruct (c w st) as [[a | e] st1]; intros H.
  - exists a, st1. split; [reflexivity | exact H].
  - discriminate H.
Qed.

Lemma bind_lift (r : result A) k w st :
  bind (lift r) k w st =
  match r with
  | Ret a => k a w st
  | Raise e => (Raise e, st)
  end.
Proof. unfold bind, lift. destruct r; reflexivity. Qed.

End RunLemmas.

Lemma queries_app tr1 tr2 : queries (tr1 ++ tr2) = (queries tr1 ++ queries tr2)%list.
Proof. apply flat_map_app. Qed.

Lemma readings_app tr1 tr2 : readings (tr1 ++ tr2) = (readings tr1 ++ readings tr2)%list.
Proof. apply flat_map_app. Qed.

(** ** The metrics gateway *)

Lemma seq_index_first {X} (l : list X) :
  seq_index l 0 = match l with [] => Raise IndexError | x :: _ => Ret x end.
Proof.
  unfold seq_index. destruct l as [| x l]; [reflexivity |].
  change (0 <? 0) with false. cbv beta iota.
  replace (0 <? Z.of_nat (length (x :: l))) with true.
  - reflexivity.
  - symmetry. apply Z.ltb_lt. simpl length. lia.
Qed.

Lemma getitem_str_of_char (l : list ascii) i k x :
  seq_index (map (fun c => VStr (String c EmptyString)) l) i = Ret x ->
  getitem_str x k = Raise TypeError.
Proof.
  unfold seq_index.
  destruct (_ && _); [| discriminate].
  destruct (nth_error _ _) as [y |] eqn:E; [| discriminate].
  intros [= <-]. apply nth_error_In, in_map_iff in E.
  destruct E as [c [<- _]]. reflexivity.
Qed.

(** The chain of subscripts in the [try] block finds exactly the usable
    data point; every other shape of response ends in the handler. *)
Lemma first_datapoint_sample response statistic :
  try_except_all (CwMetric.first_datapoint response statistic) CwMetric.fallback
  = sample_of response statistic.
Proof.
  unfold sample_of, usable_datapoint, CwMetric.first_datapoint.
  destruct response as [| | | | | | d]; try reflexivity.
  cbn [getitem_str rbind].
  destruct (dict_get d "Datapoints") as [dps |]; [| reflexivity].
  cbn [rbind].
  destruct dps as [| | | | s | l | d']; try reflexivity.
  - cbn [getitem_int]. unfold chars.
    destruct (seq_index _ 0) as [x | e] eqn:E; [| reflexivity].
    cbn [rbind]. rewrite (getitem_str_of_char _ _ _ _ E). reflexivity.
  - cbn [getitem_int]. rewrite seq_index_first.
    destruct l as [| dp rest]; [reflexivity |].
    cbn [rbind].
    destruct dp as [| | | | | | dp]; try reflexivity.
    cbn [getitem_str].
    destruct (dict_get dp statistic) as [v |]; [| reflexivity].
    cbn [rbind].
    destruct (dict_get dp "Unit") as [u |]; reflexivity.
Qed.

Lemma sample_value response :
  getitem_str (sample_of response "Sum") "Value" = Ret (reading_of response).
Proof.
  unfold sample_of, reading_of.
  destruct (usable_datapoint response "Sum") as [[v u] |]; reflexivity.
Qed.

(** One call of the gateway: two clock readings, one CloudWatch query,
    and the sample made of the answer when there is one. *)
Lemma get_s3_metric_run self bucket metric stg_type statistic w st :
  CwMetric.get_s3_metric self bucket metric stg_type statistic w st =
  let req := request_at w st bucket metric stg_type statistic in
  let answer := cloudwatch w (cw_calls st) req in
  (match answer with
   | Ret response => Ret (sample_of response statistic)
   | Raise e => Raise e
   end,
   after_call st req answer).
Proof.
  unfold CwMetric.get_s3_metric, bind, datetime_now,
    CwMetric.client_get_metric_statistics, ret.
  cbn [trace clock_reads cw_calls].
  fold (request_at w st bucket metric stg_type statistic).
  destruct (cloudwatch w (cw_calls st) _) as [response | e]; cbv zeta.
  - rewrite first_datapoint_sample. reflexivity.
  - reflexivity.
Qed.

(** C1 (amended).  Whenever the monitoring query returns a response,
    whatever its shape, [get_s3_metric] returns normally: the value and unit
    of the usable first data point when the response has one, and the
    fallback sample [{Value: 0, Unit: None}] in every other case, an empty
    list of data points among them.  The guarantee covers what happens to
    the response; the query call itself is made outside the [try] block. *)
Theorem get_s3_metric_degrades_every_response :
  forall self bucket metric stg_type statistic w st response,
    cloudwatch w (cw_calls st) (request_at w st bucket metric stg_type statistic)
    = Ret response ->
    (exists st',
       CwMetric.get_s3_metric self bucket metric stg_type statistic w st
       = (Ret match usable_datapoint response statistic with
              | Some (v, u) => VDict [("Value", v); ("Unit", u)]
              | None => VDict [("Value", VInt 0); ("Unit", VNone)]
              end, st'))
    /\ (forall d, response = VDict d ->
                  dict_get d "Datapoints" = Some (VList []) ->
                  fst (CwMetric.get_s3_metric self bucket metric stg_type statistic w st)
                  = Ret CwMetric.fallback).
Proof.
  intros self bucket metric stg_type statistic w st response H.
  pose proof (get_s3_metric_run self bucket metric stg_type statistic w st) as R.
  cbv zeta in R. rewrite H in R. split.
  - eexists. rewrite R. unfold sample_of.
    destruct (usable_datapoint response statistic) as [[v u] |]; reflexivity.
  - intros d -> Hd. rewrite R. cbn [fst]. unfold sample_of, usable_datapoint.
    rewrite Hd. reflexivity.
Qed.

(** C5.  A response whose data point list holds one data point with the
    statistic V and the unit U is turned into exactly [{Value: V, Unit: U}]. *)
Theorem get_s3_metric_single_datapoint :
  forall self bucket metric stg_type statistic w st d dp V U,
    cloudwatch w (cw_calls st) (request_at w st bucket metric stg_type statistic)
    = Ret (VDict d) ->
    dict_get d "Datapoints" = Some (VList [VDict dp]) ->
    dict_get dp statistic = Some V ->
    dict_get dp "Unit" = Some U ->
    fst (CwMetric.get_s3_metric self bucket metric stg_type statistic w st)
    = Ret (VDict [("Value", V); ("Unit", U)]).
Proof.
  intros self bucket metric stg_type statistic w st d dp V U H Hd HV HU.
  rewrite get_s3_metric_run. cbv zeta. rewrite H. cbn [fst].
  unfold sample_of, usable_datapoint. rewrite Hd, HV, HU. reflexivity.
Qed.

(** ** The session provider *)

Lemma existsb_eqb_In p l : existsb (String.eqb p) l = true <-> In p l.
Proof.
  rewrite existsb_exists. split.
  - intros [x [Hin Heq]]. apply String.eqb_eq in Heq. subst. exact Hin.
  - intros Hin. exists p. split; [exact Hin | apply String.eqb_refl].
Qed.

Lemma boto3_Session_configured w st profile region :
  configured w profile ->
  AwsSession.boto3_Session profile region w st
  = (Ret {| AwsSession.profile_name := profile;
            AwsSession.region_name := region;
            AwsSession.assume_role_cache := None |}, st).
Proof.
  unfold configured, AwsSession.boto3_Session. destruct profile as [p |].
  - intros Hin. apply existsb_eqb_In in Hin. rewrite Hin. reflexivity.
  - reflexivity.
Qed.

Lemma boto3_Session_missing w st p region :
  ~ In p (profiles w) ->
  AwsSession.boto3_Session (Some p) region w st = (Raise (ProfileNotFound p), st).
Proof.
  intros Hout. unfold AwsSession.boto3_Session.
  destruct (existsb (String.eqb p) (profiles w)) eqn:E.
  - apply existsb_eqb_In in E. contradiction.
  - reflexivity.
Qed.

(** With a configured profile [cli] returns the session, its assume-role
    cache placed under the home directory, and leaves no event. *)
Lemma cli_configured w st self :
  configured w (AwsSession.profile self) ->
  AwsSession.cli self w st
  = (Ret {| AwsSession.profile_name := AwsSession.profile self;
            AwsSession.region_name := AwsSession.region self;
            AwsSession.assume_role_cache :=
              Some (AwsSession.os_path_join (AwsSession.expanduser_tilde (home w))
                      (".aws/" ++ AwsSession.authentication self ++ "/cache")) |},
     st).
Proof.
  intros Hc. unfold AwsSession.cli, bind, try_except, AwsSession.expanduser_home.
  rewrite (boto3_Session_configured _ _ _ _ Hc). reflexivity.
Qed.

(** With a profile that is not configured, the handler of [ProfileNotFound]
    applies the logger object itself: the TypeError of that call is what
    leaves [cli], before anything is logged and before [sys.exit]. *)
Lemma cli_missing_profile w st self p :
  AwsSession.profile self = Some p ->
  ~ In p (profiles w) ->
  AwsSession.cli self w st = (Raise TypeError, st).
Proof.
  intros Hp Hout. unfold AwsSession.cli, bind, try_except, AwsSession.expanduser_home.
  rewrite Hp, (boto3_Session_missing _ _ _ _ Hout). reflexivity.
Qed.

(** C3 (the code at the failing input).  With the profile "staging", which
    the configuration does not have, the run ends in an uncaught TypeError:
    the exit status is 1, no query was made, and the trace holds no log
    record. *)
Theorem unknown_profile_ends_in_TypeError :
  AwsSession.cli
    {| AwsSession.profile := Some "staging";
       AwsSession.region := AwsSession.default_region;
       AwsSession.authentication := AwsSession.default_authentication |}
    Examples.world_ab initial
  = (Raise TypeError, initial)
  /\ query_bucket (Some "staging") None Examples.world_ab initial
     = (Raise TypeError, initial)
  /\ exit_status (fst (query_bucket (Some "staging") None Examples.world_ab initial)) = 1
  /\ trace (snd (query_bucket (Some "staging") None Examples.world_ab initial)) = [].
Proof. repeat split. Qed.

(** C4.  An authentication mode other than "sso" and "cli" makes the
    constructor log one error and raise [SystemExit(-1)], exit status 255,
    with no network call made and nothing after the constructor run; with
    "sso" or "cli" the constructor returns the session provider and leaves
    no event. *)
Theorem authentication_mode_guard :
  forall profile region authentication w st,
    (authentication <> "sso" -> authentication <> "cli" ->
     exists st',
       AwsSession.__init__ profile region authentication w st
       = (Raise (SystemExit (-1)), st')
       /\ exit_status (@Raise AwsSession.t (SystemExit (-1))) = 255
       /\ trace st'
          = (trace st
             ++ [EvLogError "Allowed values for authentication variable are sso or cli."])%list
       /\ filter is_network (trace st') = filter is_network (trace st)
       /\ forall (B : Type) (k : AwsSession.t -> Run B),
            bind (AwsSession.__init__ profile region authentication) k w st
            = (Raise (SystemExit (-1)), st'))
    /\ (authentication = "sso" \/ authentication = "cli" ->
        AwsSession.__init__ profile region authentication w st
        = (Ret {| AwsSession.profile := profile;
                  AwsSession.region := region;
                  AwsSession.authentication := authentication |}, st)).
Proof.
  intros profile region authentication w st. split.
  - intros Hsso Hcli.
    apply String.eqb_neq in Hsso. apply String.eqb_neq in Hcli.
    unfold AwsSession.__init__. rewrite Hsso, Hcli. cbn [orb].
    eexists. split; [reflexivity |].
    split; [reflexivity |]. split; [reflexivity |]. split.
    + cbn [trace]. rewrite filter_app. cbn. apply app_nil_r.
    + intros B k. reflexivity.
  - intros [-> | ->]; reflexivity.
Qed.

(** ** The report loop *)

Lemma fetch_value_run {B} self b metric stg_type (k : value -> Run B) w st :
  bind (CwMetric.get_s3_metric self b metric stg_type "Sum")
       (fun x => bind (lift (getitem_str x "Value")) k) w st
  = match cloudwatch w (cw_calls st) (request_at w st b metric stg_type "Sum") with
    | Ret response =>
        k (reading_of response) w
          (after_call st (request_at w st b metric stg_type "Sum") (Ret response))
    | Raise e =>
        (Raise e, after_call st (request_at w st b metric stg_type "Sum") (Raise e))
    end.
Proof.
  unfold bind at 1. rewrite get_s3_metric_run. cbv zeta.
  destruct (cloudwatch w (cw_calls st) _) as [response | e]; [| reflexivity].
  rewrite bind_lift, sample_value. reflexivity.
Qed.

Lemma report_bucket_inv cw b acc w st acc' st' :
  length (field_names (pt acc)) = 3%nat ->
  report_bucket cw b acc w st = (Ret acc', st') ->
  exists evs v1 v2 v3 v4 n m,
    trace st' = (trace st ++ evs)%list
    /\ forallb is_answered evs = true
    /\ queries evs = four_queries b
    /\ readings evs = [v1; v2; v3; v4]
    /\ rows (pt acc') = (rows (pt acc) ++ [[b; v1; v2]])%list
    /\ field_names (pt acc') = field_names (pt acc)
    /\ int v3 = Ret n /\ int v4 = Ret m
    /\ bytes_sum acc' = bytes_sum acc + n
    /\ count_sum acc' = count_sum acc + m
    /\ cw_calls st' = (4 + cw_calls st)%nat
    /\ (steady w -> v3 = v1 /\ v4 = v2).
Proof.
  intros Hf. unfold report_bucket, CwMetric.get_bucket_size, CwMetric.get_bucket_object_count.
  rewrite fetch_value_run.
  case_answer a1 e1 E1; [| discriminate].
  rewrite fetch_value_run.
  case_answer a2 e2 E2; [| discriminate].
  rewrite bind_lift. unfold Table.add_row. cbn [Table.set_align field_names length].
  rewrite Hf. cbn [Nat.eqb].
  rewrite fetch_value_run.
  case_answer a3 e3 E3; [| discriminate].
  rewrite bind_lift.
  destruct (int (reading_of a3)) as [n | e] eqn:En; [| discriminate].
  rewrite fetch_value_run.
  case_answer a4 e4 E4; [| discriminate].
  rewrite bind_lift.
  destruct (int (reading_of a4)) as [m | e] eqn:Em; [| discriminate].
  unfold ret. intros [= <- <-].
  eexists _, (reading_of a1), (reading_of a2), (reading_of a3), (reading_of a4), n, m.
  cbn [after_call trace cw_calls pt bytes_sum count_sum rows field_names].
  repeat rewrite <- app_assoc. cbn [app].
  repeat match goal with |- _ /\ _ => split end;
    try reflexivity; try assumption.
  intros Hs. split.
  - same_answer Hs E3 E1.
  - same_answer Hs E4 E2.
Qed.

Lemma report_bucket_footprint cw b acc w st r st' :
  report_bucket cw b acc w st = (r, st') ->
  exists evs, trace st' = (trace st ++ evs)%list /\ forallb is_query evs = true.
Proof.
  unfold report_bucket, CwMetric.get_bucket_size, CwMetric.get_bucket_object_count.
  rewrite fetch_value_run.
  destruct (cloudwatch w _ _) as [a1 | e1]; [| footprint_done].
  rewrite fetch_value_run.
  destruct (cloudwatch w _ _) as [a2 | e2]; [| footprint_done].
  rewrite bind_lift.
  destruct (Table.add_row _ _) as [pt4 | e]; [| footprint_done].
  rewrite fetch_value_run.
  destruct (cloudwatch w _ _) as [a3 | e3]; [| footprint_done].
  rewrite bind_lift.
  destruct (int (reading_of a3)) as [n | e]; [| footprint_done].
  rewrite fetch_value_run.
  destruct (cloudwatch w _ _) as [a4 | e4]; [| footprint_done].
  rewrite bind_lift.
  destruct (int (reading_of a4)) as [m | e]; [| footprint_done].
  unfold ret. footprint_done.
Qed.

Lemma report_loop_footprint cw buckets : forall acc w st r st',
  for_each buckets (report_bucket cw) acc w st = (r, st') ->
  exists evs, trace st' = (trace st ++ evs)%list /\ forallb is_query evs = true.
Proof.
  induction buckets as [| b buckets IH]; intros acc w st r st'; cbn [for_each].
  - unfold ret. intros [= <- <-]. exists []. split; [symmetry; apply app_nil_r | reflexivity].
  - unfold bind.
    destruct (report_bucket cw b acc w st) as [[acc1 | e] st1] eqn:E1;
      apply report_bucket_footprint in E1; destruct E1 as [evs1 [T1 Q1]].
    + intros H. apply IH in H. destruct H as [evs2 [T2 Q2]].
      exists (evs1 ++ evs2)%list. split.
      * rewrite T2, T1. symmetry. apply app_assoc.
      * rewrite forallb_app, Q1, Q2. reflexivity.
    + intros [= <- <-]. exists evs1. split; assumption.
Qed.

Lemma report_loop_inv cw buckets : forall acc w st acc' st',
  length (field_names (pt acc)) = 3%nat ->
  for_each buckets (report_bucket cw) acc w st = (Ret acc', st') ->
  exists evs n m,
    trace st' = (trace st ++ evs)%list
    /\ forallb is_answered evs = true
    /\ queries evs = flat_map four_queries buckets
    /\ length (readings evs) = (4 * length buckets)%nat
    /\ rows (pt acc') = (rows (pt acc) ++ rows_of buckets (readings evs))%list
    /\ field_names (pt acc') = field_names (pt acc)
    /\ sums_of (readings evs) = Ret (n, m)
    /\ bytes_sum acc' = bytes_sum acc + n
    /\ count_sum acc' = count_sum acc + m
    /\ cw_calls st' = (4 * length buckets + cw_calls st)%nat
    /\ (steady w -> shown_sums (rows_of buckets (readings evs)) = Ret (n, m)).
Proof.
  induction buckets as [| b buckets IH]; intros acc w st acc' st' Hf; cbn [for_each].
  - unfold ret. intros [= <- <-]. exists [], 0, 0. cbn.
    rewrite !app_nil_r. repeat split; lia.
  - intros H. apply bind_inv in H. destruct H as [acc1 [st1 [H1 H2]]].
    apply (report_bucket_inv _ _ _ _ _ _ _ Hf) in H1.
    destruct H1 as (evs1 & v1 & v2 & v3 & v4 & n1 & m1 & T1 & A1 & Q1 & R1 & Rw1
                    & F1 & I3 & I4 & B1 & C1 & K1 & St1).
    apply IH in H2; [| rewrite F1; exact Hf].
    destruct H2 as (evs2 & n2 & m2 & T2 & A2 & Q2 & L2 & Rw2 & F2 & S2 & B2 & C2
                    & K2 & St2).
    exists (evs1 ++ evs2)%list, (n1 + n2), (m1 + m2).
    rewrite readings_app, queries_app, forallb_app, R1, Q1, A1, A2, Q2.
    cbn [app rows_of sums_of shown_sums flat_map andb length].
    rewrite I3, I4, S2. cbn [rbind].
    repeat match goal with |- _ /\ _ => split end.
    + rewrite T2, T1. symmetry. apply app_assoc.
    + reflexivity.
    + reflexivity.
    + rewrite L2. lia.
    + rewrite Rw2, Rw1, <- app_assoc. reflexivity.
    + rewrite F2. exact F1.
    + reflexivity.
    + lia.
    + lia.
    + lia.
    + intros Hs. destruct (St1 Hs) as [<- <-].
      rewrite I3, I4, (St2 Hs). reflexivity.
Qed.


Lemma report_bucket_progress cw b acc w st :
  answers_numbers w ->
  length (field_names (pt acc)) = 3%nat ->
  exists acc' st', report_bucket cw b acc w st = (Ret acc', st').
Proof.
  intros Hw Hf.
  unfold report_bucket, CwMetric.get_bucket_size, CwMetric.get_bucket_object_count.
  rewrite fetch_value_run.
  destruct (Hw (cw_calls st) (request_at w st b "BucketSizeBytes" "StandardStorage" "Sum"))
    as (a1 & z1 & -> & _).
  rewrite fetch_value_run.
  match goal with |- context [cloudwatch w ?n ?r] =>
    destruct (Hw n r) as (a2 & z2 & -> & _) end.
  rewrite bind_lift. unfold Table.add_row. cbn [Table.set_align field_names length].
  rewrite Hf. cbn [Nat.eqb].
  rewrite fetch_value_run.
  match goal with |- context [cloudwatch w ?n ?r] =>
    destruct (Hw n r) as (a3 & z3 & -> & I3) end.
  rewrite bind_lift, I3.
  rewrite fetch_value_run.
  match goal with |- context [cloudwatch w ?n ?r] =>
    destruct (Hw n r) as (a4 & z4 & -> & I4) end.
  rewrite bind_lift, I4.
  eexists _, _. reflexivity.
Qed.

Lemma report_loop_progress cw buckets : forall acc w st,
  answers_numbers w ->
  length (field_names (pt acc)) = 3%nat ->
  exists acc' st', for_each buckets (report_bucket cw) acc w st = (Ret acc', st').
Proof.
  induction buckets as [| b buckets IH]; intros acc w st Hw Hf; cbn [for_each].
  - eexists _, _. reflexivity.
  - destruct (report_bucket_progress cw b acc w st Hw Hf) as (acc1 & st1 & H1).
    rewrite (bind_Ret _ _ _ _ _ _ H1).
    apply IH; [exact Hw |].
    apply (report_bucket_inv _ _ _ _ _ _ _ Hf) in H1.
    destruct H1 as (? & ? & ? & ? & ? & ? & ? & _ & _ & _ & _ & _ & F1 & _).
    rewrite F1. exact Hf.
Qed.

(** ** Selecting the buckets, and the run as a whole *)

Lemma collect_names items : forall acc w st,
  for_each items
    (fun b buckets => name <- lift (getitem_str b "Name") ;; ret (buckets ++ [name])%list)
    acc w st
  = (rbind (names_of items) (fun names => Ret (acc ++ names)%list), st).
Proof.
  induction items as [| item items IH]; intros acc w st; cbn [for_each names_of].
  - unfold ret. cbn [rbind]. rewrite app_nil_r. reflexivity.
  - unfold bind at 1. rewrite bind_lift.
    destruct (getitem_str item "Name") as [name | e]; [| reflexivity].
    unfold ret at 1. rewrite IH. cbn [rbind].
    destruct (names_of items) as [names | e]; [| reflexivity].
    cbn [rbind]. rewrite <- app_assoc. reflexivity.
Qed.

Lemma select_buckets_run session bucket w st :
  select_buckets session bucket w st = (working_set w bucket, after_selection w bucket st).
Proof.
  unfold select_buckets, working_set, after_selection.
  destruct bucket as [[| c rest] |]; cbn [truthy]; try reflexivity.
  all: unfold bind at 1, client_list_buckets, listed_buckets;
    destruct (s3_list_buckets w) as [response | e]; [| reflexivity];
    rewrite bind_lift; cbn [rbind];
    destruct (getitem_str response "Buckets") as [listed | e]; [| reflexivity];
    rewrite bind_lift; cbn [rbind];
    destruct (iter listed) as [items | e]; [| reflexivity];
    rewrite collect_names; cbn [rbind];
    destruct (names_of items); reflexivity.
Qed.

Lemma init_default profile w st :
  AwsSession.__init__ profile AwsSession.default_region
    AwsSession.default_authentication w st
  = (Ret {| AwsSession.profile := profile;
            AwsSession.region := AwsSession.default_region;
            AwsSession.authentication := "sso" |}, st).
Proof. reflexivity. Qed.

Lemma query_bucket_configured profile bucket w st :
  configured w profile ->
  query_bucket profile bucket w st
  = match working_set w bucket with
    | Ret buckets =>
        report_and_print (the_gateway w profile) buckets w (after_selection w bucket st)
    | Raise e => (Raise e, after_selection w bucket st)
    end.
Proof.
  intros Hc. unfold query_bucket.
  rewrite (bind_Ret _ _ _ _ _ _ (init_default profile w st)).
  rewrite (bind_Ret _ _ _ _ _ _
             (cli_configured w st
                {| AwsSession.profile := profile;
                   AwsSession.region := AwsSession.default_region;
                   AwsSession.authentication := "sso" |} Hc)).
  unfold bind at 1. rewrite select_buckets_run.
  destruct (working_set w bucket); reflexivity.
Qed.

Lemma query_bucket_unconfigured profile bucket w st :
  ~ configured w profile ->
  query_bucket profile bucket w st = (Raise TypeError, st).
Proof.
  intros Hc. unfold query_bucket.
  rewrite (bind_Ret _ _ _ _ _ _ (init_default profile w st)).
  destruct profile as [p |]; [| exfalso; apply Hc; exact I].
  apply bind_Raise. apply (cli_missing_profile w st _ p); [reflexivity | exact Hc].
Qed.

Lemma configured_dec w profile : {configured w profile} + {~ configured w profile}.
Proof.
  destruct profile as [p |]; [| left; exact I].
  cbn [configured]. destruct (existsb (String.eqb p) (profiles w)) eqn:E.
  - left. apply existsb_eqb_In. exact E.
  - right. intros H. apply existsb_eqb_In in H. congruence.
Qed.

Lemma queries_not_tables evs :
  forallb is_query evs = true -> filter is_table evs = [].
Proof.
  induction evs as [| e evs IH]; [reflexivity |].
  cbn [forallb filter]. intros H. apply andb_prop in H. destruct H as [He H].
  destruct e; try discriminate He. cbn [is_table]. apply IH. exact H.
Qed.

Lemma answered_are_queries evs :
  forallb is_answered evs = true -> forallb is_query evs = true.
Proof.
  induction evs as [| e evs IH]; [reflexivity |].
  cbn [forallb]. intros H. apply andb_prop in H. destruct H as [He H].
  rewrite (IH H). destruct e; try discriminate He. reflexivity.
Qed.

Lemma selection_quiet w bucket :
  filter is_table (trace (after_selection w bucket initial)) = []
  /\ queries (trace (after_selection w bucket initial)) = []
  /\ readings (trace (after_selection w bucket initial)) = []
  /\ cw_calls (after_selection w bucket initial) = 0%nat.
Proof. unfold after_selection. destruct (truthy bucket); repeat split. Qed.

Lemma In_table_filter title table tr :
  In (EvPrintTable title table) tr <-> In (EvPrintTable title table) (filter is_table tr).
Proof. rewrite filter_In. cbn [is_table]. tauto. Qed.

(** What a run of the tail leaves when it gets as far as printing a table. *)
Lemma report_and_print_table cw buckets w st r st' title table :
  filter is_table (trace st) = [] ->
  report_and_print cw buckets w st = (r, st') ->
  In (EvPrintTable title table) (trace st') ->
  exists evs n m,
    forallb is_answered evs = true
    /\ title = "S3 bucket metrics"
    /\ field_names table = columns
    /\ queries evs = flat_map four_queries buckets
    /\ length (readings evs) = (4 * length buckets)%nat
    /\ rows table = rows_of buckets (readings evs)
    /\ sums_of (readings evs) = Ret (n, m)
    /\ cw_calls st' = (4 * length buckets + cw_calls st)%nat
    /\ match gib n with
       | Ret storage =>
           r = Ret tt
           /\ trace st' = (trace st ++ evs ++ heading table ++ totals storage m)%list
       | Raise e =>
           r = Raise e /\ trace st' = (trace st ++ evs ++ heading table)%list
       end
    /\ (steady w -> shown_sums (rows table) = Ret (n, m)).
Proof.
  intros Hq. unfold report_and_print. unfold bind at 1.
  destruct (for_each buckets (report_bucket cw) start w st) as [[final | e] st1] eqn:E.
  - apply report_loop_inv in E; [| reflexivity].
    destruct E as (evs & n & m & T & A & Q & L & Rw & F & S & Bs & Cs & K & St).
    cbn [start pt rows bytes_sum count_sum Table.new app] in Rw, F, Bs, Cs.
    rewrite Z.add_0_l in Bs, Cs. subst n m. rewrite <- Rw in St.
    unfold print, emit, bind. cbn [trace clock_reads cw_calls lift].
    destruct (gib (bytes_sum final)) as [storage | e] eqn:G;
      intros [= <- <-]; cbn [trace cw_calls]; rewrite T;
      repeat rewrite <- app_assoc; cbn [app];
      intros Hin; apply In_table_filter in Hin;
      rewrite !filter_app, Hq, (queries_not_tables _ (answered_are_queries _ A)) in Hin;
      cbn in Hin; destruct Hin as [[= <- <-] | []];
      exists evs, (bytes_sum final), (count_sum final); rewrite G;
      repeat match goal with |- _ /\ _ => split end;
      try assumption; reflexivity.
  - intros [= <- <-] Hin. exfalso.
    apply report_loop_footprint in E. destruct E as [evs [T Qs]].
    apply In_table_filter in Hin.
    rewrite T, filter_app, Hq, (queries_not_tables _ Qs) in Hin. exact Hin.
Qed.

Lemma report_and_print_completed cw buckets w st st' :
  report_and_print cw buckets w st = (Ret tt, st') ->
  exists table, In (EvPrintTable "S3 bucket metrics" table) (trace st').
Proof.
  unfold report_and_print. intros H.
  apply bind_inv in H. destruct H as (final & st1 & _ & H).
  exists (pt final). revert H.
  unfold print, emit, bind. cbn [trace clock_reads cw_calls lift].
  destruct (gib (bytes_sum final)) as [storage | e]; intros [= <-].
  cbn [trace]. repeat rewrite <- app_assoc. cbn [app].
  apply in_or_app. right. right. left. reflexivity.
Qed.

Lemma report_and_print_progress cw buckets w st :
  answers_numbers w ->
  exists r st' table,
    report_and_print cw buckets w st = (r, st')
    /\ In (EvPrintTable "S3 bucket metrics" table) (trace st').
Proof.
  intros Hw.
  destruct (report_loop_progress cw buckets start w st Hw eq_refl) as (final & st1 & H).
  unfold report_and_print. rewrite (bind_Ret _ _ _ _ _ _ H).
  unfold print, emit, bind. cbn [trace clock_reads cw_calls lift].
  destruct (gib (bytes_sum final)) as [storage | e];
    eexists _, _, (pt final); (split; [reflexivity |]);
    cbn [trace]; repeat rewrite <- app_assoc; cbn [app];
    apply in_or_app; right; right; left; reflexivity.
Qed.

(** Every table a run prints, with the queries, readings and totals of
    that run. *)
Lemma printed_report profile bucket w r st' title table :
  query_bucket profile bucket w initial = (r, st') ->
  In (EvPrintTable title table) (trace st') ->
  exists buckets n m,
    configured w profile
    /\ working_set w bucket = Ret buckets
    /\ title = "S3 bucket metrics"
    /\ field_names table = columns
    /\ queries (trace st') = flat_map four_queries buckets
    /\ length (readings (trace st')) = (4 * length buckets)%nat
    /\ rows table = rows_of buckets (readings (trace st'))
    /\ sums_of (readings (trace st')) = Ret (n, m)
    /\ cw_calls st' = (4 * length buckets)%nat
    /\ filter is_listing (trace st')
       = filter is_listing (trace (after_selection w bucket initial))
    /\ match gib n with
       | Ret storage =>
           r = Ret tt
           /\ exists pre, trace st' = (pre ++ heading table ++ totals storage m)%list
       | Raise e => r = Raise e
       end
    /\ (steady w -> shown_sums (rows table) = Ret (n, m)).
Proof.
  destruct (configured_dec w profile) as [Hc | Hc].
  2: { rewrite (query_bucket_unconfigured _ _ _ _ Hc). intros [= <- <-] []. }
  rewrite (query_bucket_configured _ _ _ _ Hc).
  destruct (selection_quiet w bucket) as (Qt & Qq & Qr & Qc).
  destruct (working_set w bucket) as [buckets | e].
  2: { intros [= <- <-] Hin. apply In_table_filter in Hin. rewrite Qt in Hin.
       destruct Hin. }
  intros Hrun Hin.
  destruct (report_and_print_table _ _ _ _ _ _ _ _ Qt Hrun Hin)
    as (evs & n & m & A & Ht & Hf & Q & L & Rw & S & K & G & St).
  assert (T : exists tail,
             trace st' = (trace (after_selection w bucket initial) ++ evs ++ tail)%list
             /\ queries tail = [] /\ readings tail = []
             /\ filter is_listing tail = []).
  { destruct (gib n) as [storage | e]; destruct G as [_ G];
      eexists; (split; [exact G |]); repeat split. }
  destruct T as (tail & T & Tq & Tr & Tl).
  assert (El : filter is_listing evs = []).
  { clear - A. induction evs as [| e evs IH]; [reflexivity |].
    cbn [forallb] in A. apply andb_prop in A. destruct A as [He A].
    destruct e; try discriminate He. cbn [filter is_listing]. apply IH. exact A. }
  assert (Gm : match gib n with
               | Ret storage =>
                   r = Ret tt
                   /\ exists pre,
                        trace st' = (pre ++ heading table ++ totals storage m)%list
               | Raise e => r = Raise e
               end).
  { destruct (gib n) as [storage | e]; destruct G as [Gr Gt]; [| exact Gr].
    split; [exact Gr |].
    exists (trace (after_selection w bucket initial) ++ evs)%list.
    rewrite Gt, app_assoc. reflexivity. }
  assert (Eq : queries (trace st') = queries evs).
  { rewrite T, !queries_app, Qq, Tq. apply app_nil_r. }
  assert (Er : readings (trace st') = readings evs).
  { rewrite T, !readings_app, Qr, Tr. apply app_nil_r. }
  assert (Els : filter is_listing (trace st')
                = filter is_listing (trace (after_selection w bucket initial))).
  { rewrite T, !filter_app, El, Tl, !app_nil_r. reflexivity. }
  exists buckets, n, m.
  rewrite Qc, Nat.add_0_r in K. rewrite Eq, Er, Els.
  repeat match goal with |- _ /\ _ => split end; try assumption; reflexivity.
Qed.

Lemma completed_run_prints profile bucket w st' :
  query_bucket profile bucket w initial = (Ret tt, st') ->
  exists table, In (EvPrintTable "S3 bucket metrics" table) (trace st').
Proof.
  destruct (configured_dec w profile) as [Hc | Hc].
  2: { rewrite (query_bucket_unconfigured _ _ _ _ Hc). discriminate. }
  rewrite (query_bucket_configured _ _ _ _ Hc).
  destruct (working_set w bucket) as [buckets | e]; [| discriminate].
  apply report_and_print_completed.
Qed.

Lemma healthy_run_prints profile bucket w buckets :
  configured w profile ->
  working_set w bucket = Ret buckets ->
  answers_numbers w ->
  exists r st' table,
    query_bucket profile bucket w initial = (r, st')
    /\ In (EvPrintTable "S3 bucket metrics" table) (trace st').
Proof.
  intros Hc Hs Hw. rewrite (query_bucket_configured _ _ _ _ Hc), Hs.
  apply report_and_print_progress. exact Hw.
Qed.

Lemma selected profile bucket w :
  fst (select_buckets (the_session w profile) bucket w initial) = working_set w bucket.
Proof. rewrite select_buckets_run. reflexivity. Qed.

(** ** Binary64 division by a power of two *)

Lemma digits2_pos_size p : digits2_pos p = Pos.size p.
Proof. induction p as [p IH | p IH |]; cbn; congruence. Qed.

Lemma Zdigits2_bounds p d :
  Zdigits2 (Zpos p) = d <-> 2 ^ (d - 1) <= Zpos p < 2 ^ d.
Proof.
  cbn [Zdigits2]. rewrite digits2_pos_size.
  assert (E : Zpos (Pos.size p) = Z.log2 (Zpos p) + 1).
  { destruct p; cbn [Z.log2 Pos.size]; lia. }
  rewrite E. pose proof (Z.log2_nonneg (Zpos p)) as N.
  pose proof (Z.log2_spec (Zpos p) eq_refl) as [L U].
  split.
  - intros <-. replace (Z.log2 (Zpos p) + 1 - 1) with (Z.log2 (Zpos p)) by lia.
    replace (Z.log2 (Zpos p) + 1) with (Z.succ (Z.log2 (Zpos p))) by lia.
    split; assumption.
  - intros [L' U'].
    assert (0 < d).
    { destruct (Z.ltb_spec 0 d) as [? | Hd]; [assumption |].
      exfalso. assert (2 ^ d <= 2 ^ 0).
      { destruct (Z.ltb_spec d 0). rewrite Z.pow_neg_r by assumption. cbn. lia.
        replace d with 0 by lia. lia. }
      cbn in *. lia. }
    assert (Z.log2 (Zpos p) = d - 1); [| lia].
    apply Z.log2_unique; [lia |].
    replace (Z.succ (d - 1)) with d by lia. split; assumption.
Qed.

Lemma fexp_above e : -1074 <= e - 53 -> fexp 53 1024 e = e - 53.
Proof. unfold fexp, emin. lia. Qed.

Lemma round_even_mantissa sx p e :
  digits2_pos p = 53%positive ->
  -1074 <= e + 1 <= 971 ->
  binary_round_aux 53 1024 sx (Zpos p~0) e loc_Exact = S754_finite sx p (e + 1).
Proof.
  intros Hd He. unfold binary_round_aux, shr_fexp.
  cbn [Zdigits2 digits2_pos shr_record_of_loc]. rewrite Hd.
  rewrite fexp_above by lia.
  replace (Z.pos (Pos.succ 53) + e - 53 - e) with 1 by lia.
  cbn [shr iter_pos shr_1 orb shr_m loc_of_shr_record round_nearest_even
       Zdigits2 shr_record_of_loc].
  rewrite Hd. rewrite fexp_above by lia.
  replace (53 + (e + 1) - 53 - (e + 1)) with 0 by lia.
  cbn [shr shr_m].
  destruct (Z.leb_spec (e + 1) (1024 - 53)); [reflexivity | lia].
Qed.

Lemma Zdigits2_pow2 m k : 0 <= k -> Zpos m = 2 ^ k -> Zdigits2 (Zpos m) = k + 1.
Proof.
  intros Hk E. apply Zdigits2_bounds. rewrite E.
  replace (k + 1 - 1) with k by lia. split; [lia |].
  apply Z.pow_lt_mono_r; lia.
Qed.

Lemma div_core_pow2 m1 e1 m2 e2 d1 k :
  Zdigits2 (Zpos m1) = d1 -> d1 <= 53 -> 0 <= k -> Zpos m2 = 2 ^ k ->
  -1074 <= e1 - e2 + d1 - k - 54 ->
  SFdiv_core_binary 53 1024 (Zpos m1) e1 (Zpos m2) e2
  = (Zpos m1 * 2 ^ (54 - d1), e1 - e2 + d1 - k - 54, loc_Exact).
Proof.
  intros Hd1 Hle Hk Hm2 Hlow. unfold SFdiv_core_binary.
  rewrite Hd1, (Zdigits2_pow2 m2 k Hk Hm2).
  rewrite fexp_above by lia.
  replace (Z.min (d1 + e1 - (k + 1 + e2) - 53) (e1 - e2))
    with (e1 - e2 + d1 - k - 54) by lia.
  replace (e1 - e2 - (e1 - e2 + d1 - k - 54)) with (k + 54 - d1) by lia.
  cbv zeta.
  assert (Hs : Z.pos m1 * 2 ^ (k + 54 - d1) = Z.pos m1 * 2 ^ (54 - d1) * Z.pos m2).
  { rewrite Hm2, <- Z.mul_assoc, <- Z.pow_add_r by lia. do 2 f_equal. lia. }
  replace (match k + 54 - d1 with
           | 0 => Z.pos m1
           | Z.pos _ => Z.shiftl (Z.pos m1) (k + 54 - d1)
           | Z.neg _ => 0
           end) with (Z.pos m1 * 2 ^ (54 - d1) * Z.pos m2).
  2: { rewrite <- Hs. destruct (k + 54 - d1) eqn:E; try lia.
       rewrite <- E, Z.shiftl_mul_pow2 by lia. reflexivity. }
  pose proof (Z.div_mul (Z.pos m1 * 2 ^ (54 - d1)) (Zpos m2) ltac:(lia)) as Hq.
  pose proof (Z.mod_mul (Z.pos m1 * 2 ^ (54 - d1)) (Zpos m2) ltac:(lia)) as Hr.
  unfold Z.div, Z.modulo in Hq, Hr.
  destruct (Z.div_eucl _ (Z.pos m2)) as [q r]. cbn [fst snd] in Hq, Hr. subst q r.
  unfold new_location, new_location_even, new_location_odd.
  destruct (Z.even (Z.pos m2)); reflexivity.
Qed.

(** Division of a float of at most 53 significant bits by a power of two. *)
Lemma SFdiv_pow2 sx m1 e1 m2 e2 d1 k :
  Zdigits2 (Zpos m1) = d1 -> d1 <= 53 -> 0 <= k -> Zpos m2 = 2 ^ k ->
  -1073 <= e1 - e2 + d1 - k - 53 <= 971 ->
  exists p,
    Zpos p = Zpos m1 * 2 ^ (53 - d1)
    /\ SFdiv 53 1024 (S754_finite sx m1 e1) (S754_finite false m2 e2)
       = S754_finite sx p (e1 - e2 + d1 - k - 53).
Proof.
  intros Hd1 Hle Hk Hm2 Hrange.
  assert (Hd0 : 0 < d1).
  { apply Zdigits2_bounds in Hd1. destruct (Z.ltb_spec 0 d1); [assumption |].
    exfalso. destruct Hd1 as [_ U].
    assert (2 ^ d1 <= 1); [| lia].
    destruct (Z.eqb_spec d1 0) as [-> |]; [cbn; lia |].
    rewrite Z.pow_neg_r by lia. lia. }
  assert (Hpow : 0 < 2 ^ (53 - d1)) by (apply Z.pow_pos_nonneg; lia).
  assert (Hpos : 0 < Zpos m1 * 2 ^ (53 - d1)) by (apply Z.mul_pos_pos; lia).
  exists (Z.to_pos (Zpos m1 * 2 ^ (53 - d1))).
  rewrite Z2Pos.id by exact Hpos. split; [reflexivity |].
  cbn [SFdiv]. rewrite (div_core_pow2 m1 e1 m2 e2 d1 k) by (assumption || lia).
  replace (Zpos m1 * 2 ^ (54 - d1))
    with (Zpos (Z.to_pos (Zpos m1 * 2 ^ (53 - d1)))~0).
  2: { rewrite Pos2Z.inj_xO, Z2Pos.id by exact Hpos.
       replace (54 - d1) with (Z.succ (53 - d1)) by lia.
       rewrite Z.pow_succ_r by lia. lia. }
  rewrite xorb_false_r.
  rewrite round_even_mantissa.
  - f_equal. lia.
  - assert (E : Zdigits2 (Zpos (Z.to_pos (Zpos m1 * 2 ^ (53 - d1)))) = 53).
    { apply Zdigits2_bounds. rewrite Z2Pos.id by exact Hpos.
      apply Zdigits2_bounds in Hd1. destruct Hd1 as [L U].
      assert (E1 : 2 ^ (53 - 1) = 2 ^ (d1 - 1) * 2 ^ (53 - d1)).
      { rewrite <- Z.pow_add_r by lia. f_equal. lia. }
      assert (E2 : 2 ^ 53 = 2 ^ d1 * 2 ^ (53 - d1)).
      { rewrite <- Z.pow_add_r by lia. f_equal. lia. }
      rewrite E1, E2. split.
      - apply Z.mul_le_mono_nonneg_r; lia.
      - apply Z.mul_lt_mono_pos_r; lia. }
    cbn [Zdigits2] in E. injection E as E. exact E.
  - lia.
Qed.

Lemma div_half_even_scale a b c :
  0 < b -> 0 < c -> div_half_even (a * c) (b * c) = div_half_even a b.
Proof.
  intros Hb Hc. unfold div_half_even.
  rewrite Z.div_mul_cancel_r by lia.
  rewrite Z.mul_mod_distr_r by lia.
  replace (2 * (a mod b * c)) with (2 * (a mod b) * c) by lia.
  rewrite <- Zmult_compare_compat_r by lia. reflexivity.
Qed.

(** [x / 1024] on a positive float with a full mantissa only lowers the
    exponent by ten. *)
Lemma float_truediv_1024 p e :
  digits2_pos p = 53%positive ->
  -1063 <= e <= 981 ->
  float_truediv_int (S754_finite false p e) 1024 = Ret (S754_finite false p (e - 10)).
Proof.
  intros Hd He. unfold float_truediv_int.
  change (binary_normalize prec emax 1024 0 false)
    with (S754_finite false 4503599627370496 (-42)).
  cbn [is_infinite Z.eqb].
  destruct (SFdiv_pow2 false p e 4503599627370496 (-42) 53 52) as (p' & Hp & E);
    try reflexivity; try lia.
  { cbn [Zdigits2]. rewrite Hd. reflexivity. }
  unfold prec, emax. rewrite E. do 2 f_equal.
  - change (53 - 53) with 0 in Hp. rewrite Z.pow_0_r, Z.mul_1_r in Hp.
    injection Hp as ->. reflexivity.
  - lia.
Qed.

(** For a byte count below 2^53 the three divisions are exact, and the
    text is the count over 1024^3 rounded to hundredths, ties to even. *)
Lemma gib_exact bytes :
  0 <= bytes < 2 ^ 53 ->
  exists storage,
    gib bytes = Ret storage
    /\ format_2f storage = fixed_2 false (div_half_even (100 * bytes) (1024 ^ 3)).
Proof.
  intros [Hlo Hhi]. destruct bytes as [| n | n]; [| | lia].
  { exists (S754_zero false). split; reflexivity. }
  remember (Zdigits2 (Zpos n)) as d eqn:Hd. symmetry in Hd.
  assert (Hb := proj1 (Zdigits2_bounds n d) Hd).
  assert (Hd53 : d <= 53).
  { destruct (Z.leb_spec d 53) as [? | Hgt]; [assumption |]. exfalso.
    assert (2 ^ 53 <= 2 ^ (d - 1)) by (apply Z.pow_le_mono_r; lia). lia. }
  assert (Hd1 : 1 <= d).
  { cbn [Zdigits2] in Hd. lia. }
  destruct (SFdiv_pow2 false n 0 1024 0 d 10) as (p & Hp & E);
    try assumption; try reflexivity; try lia.
  assert (Hpd : digits2_pos p = 53%positive).
  { assert (Zdigits2 (Zpos p) = 53) as H53; [| cbn [Zdigits2] in H53; congruence].
    apply Zdigits2_bounds. rewrite Hp.
    assert (E1 : 2 ^ (53 - 1) = 2 ^ (d - 1) * 2 ^ (53 - d)).
    { rewrite <- Z.pow_add_r by lia. f_equal. lia. }
    assert (E2 : 2 ^ 53 = 2 ^ d * 2 ^ (53 - d)).
    { rewrite <- Z.pow_add_r by lia. f_equal. lia. }
    assert (0 < 2 ^ (53 - d)) by (apply Z.pow_pos_nonneg; lia).
    rewrite E1, E2. split.
    - apply Z.mul_le_mono_nonneg_r; lia.
    - apply Z.mul_lt_mono_pos_r; lia. }
  exists (S754_finite false p (d - 83)). split.
  - unfold gib, int_truediv. cbn [Z.eqb float_of_Z_exact].
    unfold prec, emax. rewrite E. cbn [is_infinite rbind].
    rewrite float_truediv_1024 by (assumption || lia). cbn [rbind].
    rewrite float_truediv_1024 by (assumption || lia).
    do 2 f_equal. lia.
  - cbn [format_2f]. destruct (Z.leb_spec 0 (d - 83)) as [? | _]; [lia |].
    f_equal. rewrite Z.shiftl_1_l, Hp.
    assert (0 < 2 ^ (53 - d)) by (apply Z.pow_pos_nonneg; lia).
    replace (Zpos n * 2 ^ (53 - d) * 100) with (100 * Zpos n * 2 ^ (53 - d)) by lia.
    replace (2 ^ (- (d - 83))) with (1024 ^ 3 * 2 ^ (53 - d)).
    + apply div_half_even_scale; [reflexivity | assumption].
    + change (1024 ^ 3) with (2 ^ 30). rewrite <- Z.pow_add_r by lia. f_equal. lia.
Qed.

(** ** The report: queries, rows, totals *)

(** C2 (amended).  In every completed run the report loop issues, for each
    bucket in turn, four gateway calls, each one its own CloudWatch query:
    size, count, size again, count again.  Each of the two metrics is
    fetched exactly twice per bucket, once for the row and once for the
    totals. *)
Theorem four_queries_per_bucket :
  forall profile bucket w st',
    query_bucket profile bucket w initial = (Ret tt, st') ->
    exists buckets,
      fst (select_buckets (the_session w profile) bucket w initial) = Ret buckets
      /\ queries (trace st')
         = flat_map (fun b => [size_query b; count_query b; size_query b; count_query b])
             buckets
      /\ length (queries (trace st')) = (4 * length buckets)%nat
      /\ cw_calls st' = (4 * length buckets)%nat.
Proof.
  intros profile bucket w st' Hrun.
  destruct (completed_run_prints _ _ _ _ Hrun) as [table Hin].
  destruct (printed_report _ _ _ _ _ _ _ Hrun Hin)
    as (buckets & n & m & _ & Hs & _ & _ & Q & _ & _ & _ & K & _).
  exists buckets. rewrite selected. repeat split; try assumption.
  rewrite Q. clear. induction buckets as [| b buckets IH]; [reflexivity |].
  cbn [flat_map four_queries app length]. rewrite IH. lia.
Qed.

(** C2 (as stated) fails: the report on the single bucket "a" completes
    after four gateway calls, two of them for the size metric. *)
Lemma one_bucket_takes_four_queries :
  fst (query_bucket (Some "prod") (Some "a") Examples.world_ab initial) = Ret tt
  /\ queries (trace (snd (query_bucket (Some "prod") (Some "a") Examples.world_ab initial)))
     = [size_query (VStr "a"); count_query (VStr "a");
        size_query (VStr "a"); count_query (VStr "a")]
  /\ cw_calls (snd (query_bucket (Some "prod") (Some "a") Examples.world_ab initial))
     = 4%nat
  /\ length (queries (trace (snd (query_bucket (Some "prod") (Some "a")
                                     Examples.world_ab initial))))
     <> (2 * length [VStr "a"])%nat.
Proof. vm_compute. repeat split. discriminate. Qed.

Lemma working_set_explicit w X : X <> "" -> working_set w (Some X) = Ret [VStr X].
Proof. destruct X as [| c rest]; [congruence | reflexivity]. Qed.

Lemma truthy_explicit X : X <> "" -> truthy (Some X) = true.
Proof. destruct X as [| c rest]; [congruence | reflexivity]. Qed.

Lemma names_of_Forall2 items names :
  Forall2 (fun item name => getitem_str item "Name" = Ret name) items names ->
  names_of items = Ret names.
Proof.
  induction 1 as [| item name items names H _ IH]; [reflexivity |].
  cbn [names_of]. rewrite H, IH. reflexivity.
Qed.

Lemma working_set_listed w bucket response items names :
  truthy bucket = false ->
  s3_list_buckets w = Ret response ->
  getitem_str response "Buckets" = Ret (VList items) ->
  Forall2 (fun item name => getitem_str item "Name" = Ret name) items names ->
  working_set w bucket = Ret names.
Proof.
  intros Ht Hl Hb Hn.
  assert (E : working_set w bucket = listed_buckets w).
  { destruct bucket as [[| c rest] |]; try reflexivity. discriminate Ht. }
  rewrite E. unfold listed_buckets. rewrite Hl. cbn [rbind]. rewrite Hb.
  cbn [rbind iter]. apply names_of_Forall2. exact Hn.
Qed.

Lemma report_bucket_no_data cw b acc w st :
  no_data w ->
  length (field_names (pt acc)) = 3%nat ->
  exists table st',
    report_bucket cw b acc w st
    = (Ret {| pt := table; bytes_sum := bytes_sum acc; count_sum := count_sum acc |},
       st')
    /\ rows table = (rows (pt acc) ++ [[b; VInt 0; VInt 0]])%list.
Proof.
  intros Hw Hf.
  assert (R : forall n req, exists response,
             cloudwatch w n req = Ret response /\ reading_of response = VInt 0).
  { intros n req. destruct (Hw n req) as (response & E & U).
    exists response. split; [exact E |]. unfold reading_of. rewrite U. reflexivity. }
  unfold report_bucket, CwMetric.get_bucket_size, CwMetric.get_bucket_object_count.
  rewrite fetch_value_run.
  match goal with |- context [match cloudwatch w ?n ?r with _ => _ end] =>
    destruct (R n r) as (a1 & -> & ->) end.
  rewrite fetch_value_run.
  match goal with |- context [match cloudwatch w ?n ?r with _ => _ end] =>
    destruct (R n r) as (a2 & -> & ->) end.
  rewrite bind_lift. unfold Table.add_row. cbn [Table.set_align field_names length].
  rewrite Hf. cbn [Nat.eqb].
  rewrite fetch_value_run.
  match goal with |- context [match cloudwatch w ?n ?r with _ => _ end] =>
    destruct (R n r) as (a3 & -> & ->) end.
  rewrite bind_lift. cbn [int].
  rewrite fetch_value_run.
  match goal with |- context [match cloudwatch w ?n ?r with _ => _ end] =>
    destruct (R n r) as (a4 & -> & ->) end.
  rewrite bind_lift. cbn [int]. unfold ret. rewrite !Z.add_0_r.
  eexists _, _. split; reflexivity.
Qed.

(** C7 (amended).  For every explicitly supplied bucket identifier X other
    than the empty string, the working set is [X], selected without any
    call to S3; every table the run prints has exactly one row, the row of
    X; the table is printed whenever the session can be created and the
    metric queries are answered with readings that [int] accepts; and when
    CloudWatch has no data point for X, as for a bucket that does not
    exist, the run completes with the row (X, 0, 0) and zero totals. *)
Theorem explicit_bucket_single_row :
  forall X profile w,
    X <> "" ->
    (forall session st,
       select_buckets session (Some X) w st = (Ret [VStr X], st))
    /\ (forall r st' title table,
          query_bucket profile (Some X) w initial = (r, st') ->
          In (EvPrintTable title table) (trace st') ->
          filter is_listing (trace st') = []
          /\ exists size count, rows table = [[VStr X; size; count]])
    /\ (configured w profile ->
        answers_numbers w ->
        exists r st' table,
          query_bucket profile (Some X) w initial = (r, st')
          /\ In (EvPrintTable "S3 bucket metrics" table) (trace st'))
    /\ (configured w profile ->
        no_data w ->
        exists st' pre table,
          query_bucket profile (Some X) w initial = (Ret tt, st')
          /\ rows table = [[VStr X; VInt 0; VInt 0]]
          /\ trace st'
             = (pre ++ [EvPrint nl;
                        EvPrintTable "S3 bucket metrics" table;
                        EvPrint (nl ++ "Grand total:" ++ nl);
                        EvPrint "Storage space used (GB).: 0.00";
                        EvPrint "Objects count...........: 0"])%list).
Proof.
  intros X profile w HX. split; [| split; [| split]].
  - intros session st. rewrite select_buckets_run.
    unfold after_selection. rewrite (truthy_explicit _ HX), (working_set_explicit _ _ HX).
    reflexivity.
  - intros r st' title table Hrun Hin.
    destruct (printed_report _ _ _ _ _ _ _ Hrun Hin)
      as (buckets & n & m & _ & Hs & _ & _ & _ & L & Rw & _ & _ & Ls & _).
    rewrite (working_set_explicit _ _ HX) in Hs. injection Hs as <-.
    split.
    + rewrite Ls. unfold after_selection. rewrite (truthy_explicit _ HX). reflexivity.
    + destruct (readings (trace st')) as [| v1 [| v2 [| v3 [| v4 [| v5 rs]]]]];
        try discriminate L.
      exists v1, v2. exact Rw.
  - intros Hc Hw.
    exact (healthy_run_prints _ _ _ _ Hc (working_set_explicit w X HX) Hw).
  - intros Hc Hw.
    rewrite (query_bucket_configured _ _ _ _ Hc), (working_set_explicit _ _ HX).
    unfold report_and_print. cbn [for_each].
    destruct (report_bucket_no_data (the_gateway w profile) (VStr X) start w
                (after_selection w (Some X) initial) Hw eq_refl)
      as (table & st1 & R & Rw).
    unfold bind. rewrite R. unfold ret. cbv iota beta.
    exists {| trace := (trace st1 ++ heading table ++ totals (S754_zero false) 0)%list;
              clock_reads := clock_reads st1;
              cw_calls := cw_calls st1 |}, (trace st1), table.
    split; [| split; [exact Rw | reflexivity]].
    unfold print, emit, lift. cbn [trace clock_reads cw_calls start bytes_sum count_sum pt].
    change (gib 0) with (Ret (S754_zero false)).
    repeat rewrite <- app_assoc. reflexivity.
Qed.

(** C7 (as stated) fails.  For the empty string: [--bucket ""] is an
    explicitly supplied identifier, yet S3 is asked for the listing and the
    table gets one row per bucket of the account.  For a named bucket whose
    metric query raises, and for one whose reading [int] rejects: the run
    ends in that error and no report is rendered, so there is no row. *)
Lemma explicit_bucket_is_not_always_one_row :
  fst (select_buckets (the_session Examples.world_ab (Some "prod")) (Some "")
         Examples.world_ab initial)
  = Ret [VStr "a"; VStr "b"]
  /\ map (fun table => map first_cell (rows table))
       (tables (trace (snd (query_bucket (Some "prod") (Some "")
                              Examples.world_ab initial))))
     = [[VStr "a"; VStr "b"]]
  /\ filter is_listing
       (trace (snd (query_bucket (Some "prod") (Some "") Examples.world_ab initial)))
     <> []
  /\ fst (query_bucket (Some "prod") (Some "a") Examples.world_down initial)
     = Raise (BotoError "EndpointConnectionError")
  /\ tables (trace (snd (query_bucket (Some "prod") (Some "a")
                           Examples.world_down initial)))
     = []
  /\ fst (query_bucket (Some "prod") (Some "logs") Examples.world_nan initial)
     = Raise ValueError
  /\ length (filter is_answered
               (trace (snd (query_bucket (Some "prod") (Some "logs")
                              Examples.world_nan initial))))
     = 3%nat
  /\ tables (trace (snd (query_bucket (Some "prod") (Some "logs")
                           Examples.world_nan initial)))
     = [].
Proof. vm_compute. repeat split. discriminate. Qed.


(** C9.  When nothing is named on the command line and the account lists
    no bucket, the run makes no metric query and completes: after the
    listing it prints the titled table, which has its three column headers
    and no row, then the totals "0.00" and 0. *)
Theorem empty_account_report :
  forall profile bucket w response,
    configured w profile ->
    truthy bucket = false ->
    s3_list_buckets w = Ret response ->
    getitem_str response "Buckets" = Ret (VList []) ->
    exists table,
      query_bucket profile bucket w initial
      = (Ret tt,
         {| trace :=
              [EvListBuckets (Ret response);
               EvPrint nl;
               EvPrintTable "S3 bucket metrics" table;
               EvPrint (nl ++ "Grand total:" ++ nl);
               EvPrint "Storage space used (GB).: 0.00";
               EvPrint "Objects count...........: 0"];
            clock_reads := 0;
            cw_calls := 0 |})
      /\ field_names table = ["Bucket name"; "Size [Bytes]"; "Object count"]
      /\ rows table = [].
Proof.
  intros profile bucket w response Hc Ht Hl Hb.
  exists (Table.new columns).
  rewrite (query_bucket_configured _ _ _ _ Hc).
  rewrite (working_set_listed w bucket response [] [] Ht Hl Hb (Forall2_nil _)).
  unfold after_selection. rewrite Ht, Hl. repeat split.
Qed.

(** [int] of a finite float is its integer part: the magnitude is cut
    toward zero and the sign is kept. *)
Lemma int_of_float_truncates s m e :
  exists mag,
    int (VFloat (S754_finite s m e)) = Ret (if s then - mag else mag)
    /\ (0 <= e -> mag = Zpos m * 2 ^ e)
    /\ (e < 0 -> mag * 2 ^ (- e) <= Zpos m < (mag + 1) * 2 ^ (- e)).
Proof.
  cbn [int int_of_float]. destruct (0 <=? e) eqn:E.
  - apply Z.leb_le in E. exists (Z.shiftl (Zpos m) e).
    split; [reflexivity | split; [| lia]].
    intros _. apply Z.shiftl_mul_pow2. exact E.
  - apply Z.leb_gt in E. exists (Z.shiftr (Zpos m) (- e)).
    split; [reflexivity | split; [lia |]].
    intros _. rewrite Z.shiftr_div_pow2 by lia.
    assert (P : 0 < 2 ^ (- e)) by (apply Z.pow_pos_nonneg; lia).
    pose proof (Z.mul_div_le (Zpos m) (2 ^ (- e)) P).
    pose proof (Z.mul_succ_div_gt (Zpos m) (2 ^ (- e)) P).
    lia.
Qed.

Lemma shown_sums_alike buckets : forall rs,
  length rs = (4 * length buckets)%nat ->
  refetched_alike rs ->
  shown_sums (rows_of buckets rs) = sums_of rs.
Proof.
  induction buckets as [| b buckets IH]; intros rs L A.
  - destruct rs; [reflexivity | discriminate L].
  - destruct rs as [| v1 [| v2 [| v3 [| v4 rs]]]]; cbn [length] in L; try lia.
    destruct A as (-> & -> & A).
    cbn [rows_of shown_sums sums_of]. rewrite IH; [reflexivity | lia | exact A].
Qed.

Lemma report_loop_alike cw buckets : forall acc w st acc' st',
  length (field_names (pt acc)) = 3%nat ->
  for_each buckets (report_bucket cw) acc w st = (Ret acc', st') ->
  steady w ->
  exists evs, trace st' = (trace st ++ evs)%list /\ refetched_alike (readings evs).
Proof.
  induction buckets as [| b buckets IH]; intros acc w st acc' st' Hf; cbn [for_each].
  - unfold ret. intros [= <- <-] _. exists []. split; [symmetry; apply app_nil_r | exact I].
  - intros H Hs. apply bind_inv in H. destruct H as [acc1 [st1 [H1 H2]]].
    apply (report_bucket_inv _ _ _ _ _ _ _ Hf) in H1.
    destruct H1 as (evs1 & v1 & v2 & v3 & v4 & n1 & m1 & T1 & _ & _ & R1 & _
                    & F1 & _ & _ & _ & _ & _ & St1).
    destruct (IH acc1 w st1 acc' st') as (evs2 & T2 & A2);
      [rewrite F1; exact Hf | exact H2 | exact Hs |].
    exists (evs1 ++ evs2)%list. split.
    + rewrite T2, T1. symmetry. apply app_assoc.
    + rewrite readings_app, R1. cbn [app refetched_alike].
      destruct (St1 Hs) as [E3 E4]. split; [exact E3 | split; [exact E4 | exact A2]].
Qed.

(** With a steady CloudWatch every second fetch of a completed run reads
    what the first read. *)
Lemma completed_run_alike profile bucket w st' :
  query_bucket profile bucket w initial = (Ret tt, st') ->
  steady w ->
  refetched_alike (readings (trace st')).
Proof.
  destruct (configured_dec w profile) as [Hc | Hc].
  2: { rewrite (query_bucket_unconfigured _ _ _ _ Hc). discriminate. }
  rewrite (query_bucket_configured _ _ _ _ Hc).
  destruct (selection_quiet w bucket) as (_ & _ & Qr & _).
  destruct (working_set w bucket) as [buckets | e]; [| discriminate].
  unfold report_and_print. intros H Hs.
  apply bind_inv in H. destruct H as (final & st1 & Hloop & H).
  destruct (report_loop_alike _ _ start _ _ _ _ eq_refl Hloop Hs) as (evs & T & A).
  revert H. unfold print, emit, bind. cbn [trace clock_reads cw_calls lift].
  destruct (gib (bytes_sum final)) as [storage | e]; intros [= <-].
  cbn [trace]. rewrite T, !readings_app, Qr. cbn. rewrite !app_nil_r. exact A.
Qed.

(** C10 (amended).  In every completed run four readings are taken per
    bucket, for the size, the count, the size again and the count again;
    the cells of a bucket's row are the first two as they came, while the
    totals printed below the table are the sums of [int] of the last two.
    When the second fetch of each metric reads what the first read, as it
    does when CloudWatch gives the same answer to the same query, the
    totals are exactly the sums of [int] of the cells shown.  On a float
    [int] keeps the integer part only. *)
Theorem rows_untruncated_totals_truncated :
  (forall profile bucket w st',
     query_bucket profile bucket w initial = (Ret tt, st') ->
     exists buckets table bytes objects storage pre,
       fst (select_buckets (the_session w profile) bucket w initial) = Ret buckets
       /\ queries (trace st') = flat_map four_queries buckets
       /\ length (readings (trace st')) = (4 * length buckets)%nat
       /\ trace st' = (pre ++ heading table ++ totals storage objects)%list
       /\ rows table = rows_of buckets (readings (trace st'))
       /\ sums_of (readings (trace st')) = Ret (bytes, objects)
       /\ gib bytes = Ret storage
       /\ (refetched_alike (readings (trace st')) ->
           shown_sums (rows table) = Ret (bytes, objects))
       /\ (steady w -> refetched_alike (readings (trace st')))
       /\ (steady w -> shown_sums (rows table) = Ret (bytes, objects)))
  /\ (forall s m e,
        exists mag,
          int (VFloat (S754_finite s m e)) = Ret (if s then - mag else mag)
          /\ (0 <= e -> mag = Zpos m * 2 ^ e)
          /\ (e < 0 -> mag * 2 ^ (- e) <= Zpos m < (mag + 1) * 2 ^ (- e))).
Proof.
  split; [| exact int_of_float_truncates].
  intros profile bucket w st' Hrun.
  destruct (completed_run_prints _ _ _ _ Hrun) as [table Hin].
  destruct (printed_report _ _ _ _ _ _ _ Hrun Hin)
    as (buckets & n & m & _ & Hs & _ & _ & Q & L & Rw & S & _ & _ & G & St).
  destruct (gib n) as [storage | e] eqn:Eg; [| discriminate G].
  destruct G as [_ [pre T]].
  exists buckets, table, n, m, storage, pre. rewrite selected.
  split; [exact Hs | split; [exact Q | split; [exact L | split; [exact T |]]]].
  split; [exact Rw | split; [exact S | split; [exact Eg |]]].
  split; [| split; [exact (completed_run_alike _ _ _ _ Hrun) | exact St]].
  intros A. rewrite Rw, <- S. exact (shown_sums_alike buckets _ L A).
Qed.

(** C10 (as stated) fails: the value that is summed is not the value of
    the row but the value of a second fetch.  When CloudWatch lists the two
    daily data points in another order for the second fetch, the row shows
    1536.75 bytes and 7 objects, whose integer parts are 1536 and 7, while
    the totals add 2 and 3 and the last line prints 3. *)
Lemma summed_value_is_fetched_again :
  fst (query_bucket (Some "prod") (Some "logs") Examples.world_drift initial) = Ret tt
  /\ map rows (tables (trace (snd (query_bucket (Some "prod") (Some "logs")
                                     Examples.world_drift initial))))
     = [[[VStr "logs"; Examples.f64_frac; Examples.f64 7]]]
  /\ shown_sums [[VStr "logs"; Examples.f64_frac; Examples.f64 7]] = Ret (1536, 7)
  /\ sums_of (readings (trace (snd (query_bucket (Some "prod") (Some "logs")
                                      Examples.world_drift initial))))
     = Ret (2, 3)
  /\ last (trace (snd (query_bucket (Some "prod") (Some "logs")
                         Examples.world_drift initial))) (EvPrint "")
     = EvPrint "Objects count...........: 3".
Proof. vm_compute. repeat split. Qed.



(** ** The theorems at concrete inputs *)

Lemma world_ab_answers : answers_numbers Examples.world_ab.
Proof.
  intros n req. unfold cloudwatch, Examples.world_ab, Examples.cw_ab.
  destruct (Examples.bucket_is req "a"); [| destruct (Examples.bucket_is req "b")];
    destruct (String.eqb (MetricName req) "BucketSizeBytes");
    eexists _, _; split; reflexivity.
Qed.


Lemma world_frac_steady : steady Examples.world_frac.
Proof. intros n n' req req' _ H. cbn [cloudwatch Examples.world_frac]. rewrite H. reflexivity. Qed.

Lemma get_s3_metric_degrades_every_response_witness :
  cloudwatch Examples.world_empty (cw_calls initial)
    (request_at Examples.world_empty initial (VStr "ghost")
       "BucketSizeBytes" "StandardStorage" "Sum")
  = Ret (Examples.datapoints [])
  /\ fst (CwMetric.get_s3_metric Examples.gateway (VStr "ghost")
            "BucketSizeBytes" "StandardStorage" "Sum" Examples.world_empty initial)
     = Ret (VDict [("Value", VInt 0); ("Unit", VNone)]).
Proof.
  split; [reflexivity |].
  destruct (get_s3_metric_degrades_every_response Examples.gateway (VStr "ghost")
              "BucketSizeBytes" "StandardStorage" "Sum" Examples.world_empty initial
              (Examples.datapoints []) eq_refl) as [_ H].
  exact (H _ eq_refl eq_refl).
Defined.

(** C1 (as stated) fails: when the network is down the error of the query
    call leaves [get_s3_metric]; the caller gets no sample. *)
Lemma get_s3_metric_propagates_query_error :
  fst (CwMetric.get_s3_metric Examples.gateway (VStr "a")
         "BucketSizeBytes" "StandardStorage" "Sum" Examples.world_down initial)
  = Raise (BotoError "EndpointConnectionError")
  /\ fst (query_bucket (Some "prod") (Some "a") Examples.world_down initial)
     = Raise (BotoError "EndpointConnectionError").
Proof. split; reflexivity. Qed.

Lemma get_s3_metric_single_datapoint_witness :
  fst (CwMetric.get_s3_metric Examples.gateway (VStr "a")
         "BucketSizeBytes" "StandardStorage" "Sum" Examples.world_ab initial)
  = Ret (VDict [("Value", Examples.f64 1024); ("Unit", VStr "Bytes")]).
Proof.
  apply (get_s3_metric_single_datapoint Examples.gateway (VStr "a")
           "BucketSizeBytes" "StandardStorage" "Sum" Examples.world_ab initial
           [("Label", VStr "metric");
            ("Datapoints", VList [Examples.point (Examples.f64 1024) "Bytes"])]
           [("Timestamp", VStr "2024-01-01T00:00:00Z");
            ("Sum", Examples.f64 1024); ("Unit", VStr "Bytes")]);
    reflexivity.
Defined.

Lemma authentication_mode_guard_witness :
  fst (AwsSession.__init__ (Some "prod") "eu-west-1" "oauth" Examples.world_ab initial)
  = Raise (SystemExit (-1))
  /\ fst (AwsSession.__init__ (Some "prod") "eu-west-1" "cli" Examples.world_ab initial)
     = Ret {| AwsSession.profile := Some "prod";
              AwsSession.region := "eu-west-1";
              AwsSession.authentication := "cli" |}.
Proof.
  destruct (authentication_mode_guard (Some "prod") "eu-west-1" "oauth"
              Examples.world_ab initial) as [Hbad _].
  destruct (authentication_mode_guard (Some "prod") "eu-west-1" "cli"
              Examples.world_ab initial) as [_ Hgood].
  destruct Hbad as (st' & E & _); [discriminate | discriminate |].
  split.
  - rewrite E. reflexivity.
  - rewrite (Hgood (or_intror eq_refl)). reflexivity.
Defined.

Lemma four_queries_per_bucket_witness :
  Examples.run_ab = (Ret tt, snd Examples.run_ab)
  /\ queries (trace (snd Examples.run_ab))
     = [size_query (VStr "a"); count_query (VStr "a");
        size_query (VStr "a"); count_query (VStr "a");
        size_query (VStr "b"); count_query (VStr "b");
        size_query (VStr "b"); count_query (VStr "b")].
Proof.
  assert (H : query_bucket (Some "prod") None Examples.world_ab initial
              = (Ret tt, snd Examples.run_ab))
    by (vm_compute; reflexivity).
  split; [exact H |].
  destruct (four_queries_per_bucket (Some "prod") None Examples.world_ab _ H)
    as (buckets & Hs & Q & _).
  rewrite Q. vm_compute in Hs. injection Hs as <-. reflexivity.
Defined.


Lemma world_empty_no_data : no_data Examples.world_empty.
Proof. intros n req. eexists. split; reflexivity. Qed.

Lemma explicit_bucket_single_row_witness :
  select_buckets (the_session Examples.world_ab (Some "prod")) (Some "zzz")
    Examples.world_ab initial
  = (Ret [VStr "zzz"], initial)
  /\ (exists r st' table,
        query_bucket (Some "prod") (Some "zzz") Examples.world_ab initial = (r, st')
        /\ In (EvPrintTable "S3 bucket metrics" table) (trace st'))
  /\ (exists st' pre table,
        query_bucket None (Some "zzz") Examples.world_empty initial = (Ret tt, st')
        /\ rows table = [[VStr "zzz"; VInt 0; VInt 0]]
        /\ trace st'
           = (pre ++ [EvPrint nl;
                      EvPrintTable "S3 bucket metrics" table;
                      EvPrint (nl ++ "Grand total:" ++ nl);
                      EvPrint "Storage space used (GB).: 0.00";
                      EvPrint "Objects count...........: 0"])%list).
Proof.
  assert (HX : "zzz" <> "") by discriminate.
  destruct (explicit_bucket_single_row "zzz" (Some "prod") Examples.world_ab HX)
    as (Hsel & _ & Hrun & _).
  destruct (explicit_bucket_single_row "zzz" None Examples.world_empty HX)
    as (_ & _ & _ & Hzero).
  split; [| split].
  - apply Hsel.
  - apply Hrun.
    + right. left. reflexivity.
    + exact world_ab_answers.
  - apply Hzero.
    + exact I.
    + exact world_empty_no_data.
Defined.


Lemma empty_account_report_witness :
  exists table,
    query_bucket None None Examples.world_empty initial
    = (Ret tt,
       {| trace :=
            [EvListBuckets (Ret (Examples.listing []));
             EvPrint nl;
             EvPrintTable "S3 bucket metrics" table;
             EvPrint (nl ++ "Grand total:" ++ nl);
             EvPrint "Storage space used (GB).: 0.00";
             EvPrint "Objects count...........: 0"];
          clock_reads := 0;
          cw_calls := 0 |})
    /\ field_names table = ["Bucket name"; "Size [Bytes]"; "Object count"]
    /\ rows table = [].
Proof.
  exact (empty_account_report None None Examples.world_empty (Examples.listing [])
           I eq_refl eq_refl eq_refl).
Defined.

Lemma rows_untruncated_totals_truncated_witness :
  Examples.run_frac = (Ret tt, snd Examples.run_frac)
  /\ exists table storage pre,
       trace (snd Examples.run_frac) = (pre ++ heading table ++ totals storage 7)%list
       /\ rows table = [[VStr "logs"; Examples.f64_frac; Examples.f64 7]]
       /\ sums_of (readings (trace (snd Examples.run_frac))) = Ret (1536, 7)
       /\ shown_sums (rows table) = Ret (1536, 7).
Proof.
  assert (H : query_bucket (Some "prod") (Some "logs") Examples.world_frac initial
              = (Ret tt, snd Examples.run_frac))
    by (vm_compute; reflexivity).
  split; [exact H |].
  destruct (proj1 rows_untruncated_totals_truncated (Some "prod") (Some "logs")
              Examples.world_frac _ H)
    as (buckets & table & bytes & objects & storage & pre & Hs & _ & _ & T & Rw & S
        & _ & _ & _ & St).
  vm_compute in Hs. injection Hs as <-.
  assert (R : readings (trace (snd Examples.run_frac))
              = [Examples.f64_frac; Examples.f64 7; Examples.f64_frac; Examples.f64 7])
    by (vm_compute; reflexivity).
  rewrite R in Rw, S. cbn [rows_of] in Rw.
  vm_compute in S. injection S as <- <-.
  exists table, storage, pre. split; [exact T | split; [| split]].
  - exact Rw.
  - vm_compute. reflexivity.
  - exact (St world_frac_steady).
Defined.

(** * Further properties of the script *)

(** ** Steps of the gateway *)

Lemma gateway_steps_trans w st1 st2 st3 :
  gateway_steps w st1 st2 -> gateway_steps w st2 st3 -> gateway_steps w st1 st3.
Proof.
  intros H12 H23. induction H23 as [| st' b metric stg_type H23 IH Hin].
  - exact H12.
  - apply steps_call; assumption.
Qed.

Lemma steps_size w st st' b answer :
  gateway_steps w st st' ->
  answer = cloudwatch w (cw_calls st') (request_at w st' b "BucketSizeBytes" "StandardStorage" "Sum") ->
  gateway_steps w st
    (after_call st' (request_at w st' b "BucketSizeBytes" "StandardStorage" "Sum") answer).
Proof. intros H ->. apply steps_call; [exact H | left; reflexivity]. Qed.

Lemma steps_count w st st' b answer :
  gateway_steps w st st' ->
  answer = cloudwatch w (cw_calls st') (request_at w st' b "NumberOfObjects" "AllStorageTypes" "Sum") ->
  gateway_steps w st
    (after_call st' (request_at w st' b "NumberOfObjects" "AllStorageTypes" "Sum") answer).
Proof. intros H ->. apply steps_call; [exact H | right; left; reflexivity]. Qed.

Ltac steps_done :=
  repeat first [ apply steps_none
               | apply steps_size; [| symmetry; eassumption]
               | apply steps_count; [| symmetry; eassumption] ].

Ltac last_failed :=
  eexists _, _; split; [reflexivity | split; reflexivity].

Ltac ends_done :=
  intros [= <- <-]; cbn [after_call trace];
  repeat rewrite <- app_assoc; cbn [app];
  split; [steps_done |];
  eexists; split; [reflexivity |];
  first [ left; reflexivity
        | right; exists []; last_failed
        | right; eexists [_]; last_failed
        | right; eexists [_; _]; last_failed
        | right; eexists [_; _; _]; last_failed ].

Lemma report_bucket_any cw b acc w st r st' :
  report_bucket cw b acc w st = (r, st') ->
  gateway_steps w st st'
  /\ exists evs, trace st' = (trace st ++ evs)%list /\ ends_with (raised r) evs.
Proof.
  unfold ends_with.
  unfold report_bucket, CwMetric.get_bucket_size, CwMetric.get_bucket_object_count.
  rewrite fetch_value_run. case_answer a1 e1 E1; [| ends_done].
  rewrite fetch_value_run. case_answer a2 e2 E2; [| ends_done].
  rewrite bind_lift.
  destruct (Table.add_row _ _) as [pt4 | e]; [| ends_done].
  rewrite fetch_value_run. case_answer a3 e3 E3; [| ends_done].
  rewrite bind_lift.
  destruct (int (reading_of a3)) as [n | e]; [| ends_done].
  rewrite fetch_value_run. case_answer a4 e4 E4; [| ends_done].
  rewrite bind_lift.
  destruct (int (reading_of a4)) as [m | e]; [| ends_done].
  unfold ret. ends_done.
Qed.

Lemma report_loop_any cw buckets : forall acc w st r st',
  for_each buckets (report_bucket cw) acc w st = (r, st') ->
  gateway_steps w st st'
  /\ exists evs, trace st' = (trace st ++ evs)%list /\ ends_with (raised r) evs.
Proof.
  induction buckets as [| b buckets IH]; intros acc w st r st'; cbn [for_each].
  - unfold ret. intros [= <- <-]. split; [apply steps_none |].
    exists []. split; [symmetry; apply app_nil_r | left; reflexivity].
  - unfold bind.
    destruct (report_bucket cw b acc w st) as [[acc1 | e] st1] eqn:E1;
      apply report_bucket_any in E1; destruct E1 as (S1 & evs1 & T1 & W1).
    + intros H. apply IH in H. destruct H as (S2 & evs2 & T2 & W2).
      split; [exact (gateway_steps_trans _ _ _ _ S1 S2) |].
      exists (evs1 ++ evs2)%list. split; [rewrite T2, T1; symmetry; apply app_assoc |].
      assert (A1 : forallb is_answered evs1 = true).
      { destruct W1 as [A1 | (? & ? & ? & _ & _ & Hr)]; [exact A1 | discriminate Hr]. }
      destruct W2 as [A2 | (pre & req & e & -> & A2 & Hr)].
      * left. rewrite forallb_app, A1, A2. reflexivity.
      * right. exists (evs1 ++ pre)%list, req, e.
        rewrite forallb_app, A1, A2, app_assoc. repeat split. exact Hr.
    + intros [= <- <-]. split; [exact S1 |]. exists evs1. split; assumption.
Qed.

Lemma gib_only_overflows bytes e : gib bytes = Raise e -> e = OverflowError.
Proof.
  unfold gib, int_truediv. cbn [Z.eqb].
  destruct (is_infinite _); cbn [rbind]; [intros [= <-]; reflexivity |].
  unfold float_truediv_int.
  change (binary_normalize prec emax 1024 0 false)
    with (S754_finite false 4503599627370496 (-42)).
  cbn [is_infinite Z.eqb rbind]. discriminate.
Qed.

(** The part of a run from the report loop on, whatever its outcome. *)
Lemma report_and_print_any cw buckets w st r st' :
  report_and_print cw buckets w st = (r, st') ->
  exists st2 evs out,
    gateway_steps w st st2
    /\ trace st2 = (trace st ++ evs)%list
    /\ trace st' = (trace st2 ++ out)%list
    /\ clock_reads st' = clock_reads st2
    /\ cw_calls st' = cw_calls st2
    /\ ((out = [] /\ ends_with (raised r) evs /\ exists e, r = Raise e)
        \/ (forallb is_answered evs = true
            /\ exists final,
                 for_each buckets (report_bucket cw) start w st = (Ret final, st2)
                 /\ ((out = heading (pt final)
                      /\ gib (bytes_sum final) = Raise OverflowError
                      /\ r = Raise OverflowError)
                     \/ exists storage,
                          gib (bytes_sum final) = Ret storage
                          /\ out = (heading (pt final)
                                    ++ totals storage (count_sum final))%list
                          /\ r = Ret tt))).
Proof.
  unfold report_and_print. unfold bind at 1.
  destruct (for_each buckets (report_bucket cw) start w st) as [[final | e] st2] eqn:E.
  - destruct (report_loop_any _ _ _ _ _ _ _ E) as (S2 & evs & T & W).
    assert (A : forallb is_answered evs = true).
    { destruct W as [A | (? & ? & ? & _ & _ & Hr)]; [exact A | discriminate Hr]. }
    unfold print, emit, bind. cbn [trace clock_reads cw_calls lift].
    destruct (gib (bytes_sum final)) as [storage | e] eqn:G; intros [= <- <-];
      exists st2, evs; eexists; cbn [trace clock_reads cw_calls];
      repeat rewrite <- app_assoc; cbn [app];
      (split; [exact S2 |]); (split; [exact T |]); (split; [reflexivity |]);
      (split; [reflexivity |]); (split; [reflexivity |]);
      right; (split; [exact A |]); exists final; (split; [reflexivity |]).
    + right. exists storage. repeat split. exact G.
    + left. pose proof (gib_only_overflows _ _ G) as ->. repeat split. exact G.
  - intros [= <- <-].
    destruct (report_loop_any _ _ _ _ _ _ _ E) as (S2 & evs & T & W).
    exists st2, evs, []. rewrite app_nil_r.
    repeat match goal with |- _ /\ _ => split end; try assumption; try reflexivity.
    left. split; [reflexivity | split; [exact W | exists e; reflexivity]].
Qed.

(** A run of [query_bucket], whatever its outcome: the session fails, or
    the selection of the buckets fails, or the report loop runs. *)
Lemma run_any profile bucket w r st' :
  query_bucket profile bucket w initial = (r, st') ->
  (~ configured w profile /\ r = Raise TypeError /\ st' = initial)
  \/ (configured w profile
      /\ exists e,
           working_set w bucket = Raise e
           /\ r = Raise e /\ st' = after_selection w bucket initial)
  \/ (configured w profile
      /\ exists buckets,
           working_set w bucket = Ret buckets
           /\ report_and_print (the_gateway w profile) buckets w
                (after_selection w bucket initial) = (r, st')).
Proof.
  destruct (configured_dec w profile) as [Hc | Hc].
  - rewrite (query_bucket_configured _ _ _ _ Hc).
    destruct (working_set w bucket) as [buckets | e].
    + intros H. right. right. split; [exact Hc |]. exists buckets. split; [reflexivity | exact H].
    + intros [= <- <-]. right. left. split; [exact Hc |]. exists e. repeat split.
  - rewrite (query_bucket_unconfigured _ _ _ _ Hc). intros [= <- <-].
    left. repeat split. exact Hc.
Qed.

Lemma answered_no_output evs :
  forallb is_answered evs = true ->
  forallb is_query evs = true
  /\ filter is_output evs = []
  /\ filter is_listing evs = []
  /\ forall req e, ~ In (EvGetMetricStatistics req (Raise e)) evs.
Proof.
  induction evs as [| ev evs IH]; cbn [forallb filter].
  - intros _. repeat split. intros req e [].
  - intros H. apply andb_prop in H. destruct H as [Hev H].
    destruct (IH H) as (Q & O & L & N).
    destruct ev as [| | req [response | e] | |]; try discriminate Hev.
    cbn [is_query is_output is_listing andb]. repeat split; try assumption.
    intros req' e' [Heq | Hin]; [discriminate Heq | exact (N _ _ Hin)].
Qed.

Lemma ends_with_no_output err evs :
  ends_with err evs ->
  forallb is_query evs = true
  /\ filter is_output evs = []
  /\ filter is_listing evs = [].
Proof.
  intros [A | (pre & req & e & -> & A & _)].
  - destruct (answered_no_output _ A) as (Q & O & L & _). repeat split; assumption.
  - destruct (answered_no_output _ A) as (Q & O & L & _).
    rewrite forallb_app, !filter_app, Q, O, L. repeat split.
Qed.

Lemma selection_trace w bucket :
  trace (after_selection w bucket initial)
  = (if truthy bucket then [] else [EvListBuckets (s3_list_buckets w)]).
Proof. unfold after_selection. destruct (truthy bucket); reflexivity. Qed.

(** X (shape of a run).  Whatever the outcome, a run leaves at most one
    listing of the account (none when a bucket is named), then metric
    queries only, then its output; the output is nothing at all, or the
    table and the "Grand total" line when the division overflows, or the
    whole report, which is the one case in which the run returns. *)
Theorem run_leaves_listing_queries_output :
  forall profile bucket w r st',
    query_bucket profile bucket w initial = (r, st') ->
    exists sel evs out,
      trace st' = (sel ++ evs ++ out)%list
      /\ (sel = [] \/ (truthy bucket = false /\ sel = [EvListBuckets (s3_list_buckets w)]))
      /\ forallb is_query evs = true
      /\ ((out = [] /\ exists e, r = Raise e)
          \/ (exists table, out = heading table /\ r = Raise OverflowError)
          \/ (exists table storage objects,
                out = (heading table ++ totals storage objects)%list /\ r = Ret tt)).
Proof.
  intros profile bucket w r st' Hrun.
  destruct (run_any _ _ _ _ _ Hrun)
    as [(_ & -> & ->) | [(_ & e & _ & -> & ->) | (_ & buckets & _ & H)]].
  - exists [], [], []. repeat split; [left; reflexivity |].
    left. split; [reflexivity | eexists; reflexivity].
  - exists (trace (after_selection w bucket initial)), [], [].
    rewrite app_nil_r. split; [reflexivity |]. split.
    { rewrite selection_trace. destruct (truthy bucket); [left | right]; repeat split. }
    split; [reflexivity |]. left. split; [reflexivity | eexists; reflexivity].
  - destruct (report_and_print_any _ _ _ _ _ _ H)
      as (st2 & evs & out & _ & T2 & T & _ & _ & Hout).
    exists (trace (after_selection w bucket initial)), evs, out.
    split; [rewrite T, T2, app_assoc; reflexivity |]. split.
    { rewrite selection_trace. destruct (truthy bucket); [left | right]; repeat split. }
    destruct Hout as [(-> & W & e & ->) | (A & final & _ & [(-> & _ & ->) | (storage & _ & -> & ->)])].
    + split; [exact (proj1 (ends_with_no_output _ _ W)) |].
      left. split; [reflexivity | eexists; reflexivity].
    + split; [exact (proj1 (answered_no_output _ A)) |].
      right. left. eexists. split; reflexivity.
    + split; [exact (proj1 (answered_no_output _ A)) |].
      right. right. eexists _, _, _. split; reflexivity.
Qed.

(** X (a failed query).  If any metric query of a run fails, that query is
    the last thing the run does: its error is the outcome of the run and
    nothing is printed, also not for the buckets queried before. *)
Theorem failed_query_ends_run_silently :
  forall profile bucket w r st' req e,
    query_bucket profile bucket w initial = (r, st') ->
    In (EvGetMetricStatistics req (Raise e)) (trace st') ->
    r = Raise e
    /\ filter is_output (trace st') = []
    /\ exists pre, trace st' = (pre ++ [EvGetMetricStatistics req (Raise e)])%list.
Proof.
  intros profile bucket w r st' req e Hrun Hin.
  destruct (run_any _ _ _ _ _ Hrun)
    as [(_ & -> & ->) | [(_ & e' & _ & -> & ->) | (_ & buckets & _ & H)]].
  - destruct Hin.
  - rewrite selection_trace in Hin. destruct (truthy bucket); cbn [In] in Hin.
    + destruct Hin.
    + destruct Hin as [Heq | []]. discriminate Heq.
  - destruct (report_and_print_any _ _ _ _ _ _ H)
      as (st2 & evs & out & _ & T2 & T & _ & _ & Hout).
    assert (Hsel : forall x, In x (trace (after_selection w bucket initial)) ->
                             x = EvListBuckets (s3_list_buckets w)).
    { intros x. rewrite selection_trace. destruct (truthy bucket); cbn [In]; [tauto |].
      intros [<- | []]. reflexivity. }
    assert (Osel : filter is_output (trace (after_selection w bucket initial)) = []).
    { rewrite selection_trace. destruct (truthy bucket); reflexivity. }
    rewrite T, T2 in Hin. rewrite T, T2.
    apply in_app_or in Hin. destruct Hin as [Hin | Hin];
      [apply in_app_or in Hin; destruct Hin as [Hin | Hin] |].
    + apply Hsel in Hin. discriminate Hin.
    + destruct Hout as [(-> & W & _) | (A & _)].
      2: { exfalso. exact (proj2 (proj2 (proj2 (answered_no_output _ A))) _ _ Hin). }
      destruct W as [A | (pre & req' & e' & -> & A & Hr)].
      { exfalso. exact (proj2 (proj2 (proj2 (answered_no_output _ A))) _ _ Hin). }
      destruct (answered_no_output _ A) as (_ & O & _ & N).
      apply in_app_or in Hin. destruct Hin as [Hin | [Heq | []]];
        [exfalso; exact (N _ _ Hin) |].
      injection Heq as -> ->.
      destruct r as [[] | e'']; [discriminate Hr |]. injection Hr as ->.
      split; [reflexivity |]. split.
      * rewrite app_nil_r, !filter_app, Osel, O. reflexivity.
      * exists (trace (after_selection w bucket initial) ++ pre)%list.
        rewrite app_nil_r, app_assoc. reflexivity.
    + exfalso.
      destruct Hout as [(-> & _) | (_ & final & _ & [(-> & _) | (storage & _ & -> & _)])];
        cbn [heading totals app In] in Hin;
        repeat match type of Hin with
               | _ \/ _ => destruct Hin as [Hin | Hin]; [discriminate Hin |]
               end; exact Hin.
Qed.

(** ** Failures before the loop *)

Lemma names_of_missing_name ds :
  (exists d, In d ds /\ dict_get d "Name" = None) ->
  names_of (map VDict ds) = Raise KeyError.
Proof.
  induction ds as [| d ds IH]; intros (d0 & Hin & Hn); [destruct Hin |].
  cbn [map names_of getitem_str].
  destruct (dict_get d "Name") as [name |] eqn:E; [| reflexivity].
  cbn [rbind]. destruct Hin as [-> | Hin]; [congruence |].
  rewrite IH by (exists d0; split; assumption). reflexivity.
Qed.

(** X (listing failures).  When no bucket is named and the listing fails
    -- S3 raises, or the response has no "Buckets", or a listed entry has
    no "Name" -- the run ends with that error after the one S3 call: no
    metric query is made and nothing is printed. *)
Theorem listing_failure_ends_run :
  forall profile bucket w,
    configured w profile ->
    truthy bucket = false ->
    let stopped e :=
      query_bucket profile bucket w initial
      = (Raise e,
         {| trace := [EvListBuckets (s3_list_buckets w)];
            clock_reads := 0;
            cw_calls := 0 |}) in
    (forall e, s3_list_buckets w = Raise e -> stopped e)
    /\ (forall d,
          s3_list_buckets w = Ret (VDict d) ->
          dict_get d "Buckets" = None ->
          stopped KeyError)
    /\ (forall d ds,
          s3_list_buckets w = Ret (VDict d) ->
          dict_get d "Buckets" = Some (VList (map VDict ds)) ->
          (exists entry, In entry ds /\ dict_get entry "Name" = None) ->
          stopped KeyError).
Proof.
  intros profile bucket w Hc Ht stopped. subst stopped. cbv beta.
  assert (E : working_set w bucket = listed_buckets w).
  { destruct bucket as [[| c rest] |]; try reflexivity. discriminate Ht. }
  rewrite (query_bucket_configured _ _ _ _ Hc), E.
  unfold after_selection, listed_buckets. rewrite Ht. cbn [trace clock_reads cw_calls initial app].
  split; [| split].
  - intros e ->. reflexivity.
  - intros d -> Hd. cbn [rbind getitem_str]. rewrite Hd. reflexivity.
  - intros d ds -> Hd Hmiss. cbn [rbind getitem_str]. rewrite Hd. cbn [rbind iter].
    rewrite (names_of_missing_name _ Hmiss). reflexivity.
Qed.

(** X (missing profile).  With a profile that the local configuration
    does not have, whatever the bucket option and whatever the services
    would answer, the run ends in the TypeError of the handler: exit status
    1, no call to S3 or CloudWatch, no log record, no output. *)
Theorem missing_profile_ends_run :
  forall p bucket w,
    ~ In p (profiles w) ->
    query_bucket (Some p) bucket w initial = (Raise TypeError, initial)
    /\ exit_status (fst (query_bucket (Some p) bucket w initial)) = 1
    /\ trace (snd (query_bucket (Some p) bucket w initial)) = [].
Proof.
  intros p bucket w Hp.
  rewrite (query_bucket_unconfigured (Some p) bucket w initial Hp). repeat split.
Qed.

(** ** The queries of a run *)

Lemma query_events_app tr1 tr2 :
  query_events (tr1 ++ tr2) = (query_events tr1 ++ query_events tr2)%list.
Proof. apply flat_map_app. Qed.

Lemma steps_keep_in_step w st st' :
  gateway_steps w st st' -> in_step w st -> in_step w st'.
Proof.
  intros H I0. induction H as [| st' b metric stg_type H IH Hin]; [exact I0 |].
  destruct IH as (L & C & Q). unfold in_step.
  cbn [after_call trace clock_reads cw_calls].
  rewrite query_events_app. cbn [query_events flat_map app].
  rewrite length_app. cbn [length]. split; [lia | split; [lia |]].
  intros k q Hk.
  destruct (Nat.lt_ge_cases k (length (query_events (trace st')))) as [Hlt | Hge].
  - rewrite nth_error_app1 in Hk by exact Hlt. exact (Q _ _ Hk).
  - rewrite nth_error_app2 in Hk by exact Hge.
    destruct (k - length (query_events (trace st')))%nat as [| j] eqn:Ej.
    2: { destruct j; discriminate Hk. }
    injection Hk as <-.
    assert (k = cw_calls st') as -> by lia.
    unfold kth_query. cbn [fst snd request_at Namespace Period Statistics MetricName
                           Dimensions StartTime EndTime].
    rewrite C.
    replace (S (2 * cw_calls st')) with (2 * cw_calls st' + 1)%nat by lia.
    repeat split. exists b, stg_type. split; [exact Hin | reflexivity].
Qed.

Lemma in_step_selection w bucket : in_step w (after_selection w bucket initial).
Proof.
  unfold in_step. rewrite selection_trace.
  unfold after_selection.
  destruct (truthy bucket); cbn [trace clock_reads cw_calls initial query_events flat_map app length];
    (split; [reflexivity | split; [reflexivity |]]);
    intros [| k] q Hk; discriminate Hk.
Qed.

Lemma run_in_step profile bucket w r st' :
  query_bucket profile bucket w initial = (r, st') -> in_step w st'.
Proof.
  intros Hrun.
  destruct (run_any _ _ _ _ _ Hrun)
    as [(_ & -> & ->) | [(_ & e' & _ & -> & ->) | (_ & buckets & _ & H)]].
  - exact (in_step_selection w (Some "x")).
  - apply in_step_selection.
  - destruct (report_and_print_any _ _ _ _ _ _ H)
      as (st2 & evs & out & S2 & _ & T & Hclock & Hcalls & Hout).
    destruct (steps_keep_in_step _ _ _ S2 (in_step_selection w bucket)) as (L & C & Q).
    assert (E : query_events (trace st') = query_events (trace st2)).
    { rewrite T, query_events_app.
      destruct Hout as [(-> & _) | (_ & final & _ & [(-> & _) | (storage & _ & -> & _)])];
        cbn; apply app_nil_r. }
    unfold in_step. rewrite E, Hclock, Hcalls.
    split; [exact L | split; [exact C | exact Q]].
Qed.

(** X (what is asked).  Every metric query of every run goes to the
    namespace AWS/S3 with a period of one day and the one statistic Sum;
    its dimensions name one bucket and one storage type, and the metric
    decides the storage type: BucketSizeBytes is asked for StandardStorage
    only, NumberOfObjects for AllStorageTypes only. *)
Theorem every_query_is_well_formed :
  forall profile bucket w r st' req answer,
    query_bucket profile bucket w initial = (r, st') ->
    In (req, answer) (query_events (trace st')) ->
    Namespace req = "AWS/S3"
    /\ Period req = 86400
    /\ Statistics req = ["Sum"]
    /\ exists b,
         (MetricName req = "BucketSizeBytes"
          /\ Dimensions req
             = VList [VDict [("Name", VStr "BucketName"); ("Value", b)];
                      VDict [("Name", VStr "StorageType");
                             ("Value", VStr "StandardStorage")]])
         \/ (MetricName req = "NumberOfObjects"
             /\ Dimensions req
                = VList [VDict [("Name", VStr "BucketName"); ("Value", b)];
                         VDict [("Name", VStr "StorageType");
                                ("Value", VStr "AllStorageTypes")]]).
Proof.
  intros profile bucket w r st' req answer Hrun Hin.
  destruct (run_in_step _ _ _ _ _ Hrun) as (_ & _ & Q).
  apply In_nth_error in Hin. destruct Hin as [k Hk].
  destruct (Q _ _ Hk) as (N & P & S & (b & stg_type & Hp & D) & _).
  cbn [fst] in N, P, S, Hp, D. repeat split; try assumption.
  exists b. cbn [metric_pairs In] in Hp.
  destruct Hp as [Hp | [Hp | []]]; injection Hp as Hm <-; [left | right];
    split; [symmetry; exact Hm | exact D | symmetry; exact Hm | exact D].
Qed.

(** X (when it is asked).  The k-th query of a run takes two readings of
    the clock of its own, the 2k-th and the one after: its window starts
    two days before the first and ends at the second, so with a clock that
    never runs backwards every window is at least two days long; and the
    answer a run works with is the answer to that very query. *)
Theorem every_query_has_its_own_window :
  forall profile bucket w r st' k req answer,
    query_bucket profile bucket w initial = (r, st') ->
    nth_error (query_events (trace st')) k = Some (req, answer) ->
    StartTime req = now w (2 * k) - 2 * 86400 * 1000000
    /\ EndTime req = now w (2 * k + 1)
    /\ answer = cloudwatch w k req
    /\ clock_reads st' = (2 * cw_calls st')%nat
    /\ (monotone_clock w -> 2 * 86400 * 1000000 <= EndTime req - StartTime req).
Proof.
  intros profile bucket w r st' k req answer Hrun Hk.
  destruct (run_in_step _ _ _ _ _ Hrun) as (_ & C & Q).
  destruct (Q _ _ Hk) as (_ & _ & _ & _ & Hs & He & Ha).
  cbn [fst snd] in Hs, He, Ha. unfold timedelta in Hs.
  repeat split; try assumption; try lia.
  intros Hm. rewrite Hs, He.
  pose proof (Hm (2 * k)%nat (2 * k + 1)%nat ltac:(lia)). lia.
Qed.

(** ** The gateway and its data points *)

(** X (the first data point).  When the response lists several data
    points, the sample is made of the first one as listed; whatever comes
    after it, well formed or not, has no part in the result. *)
Theorem first_listed_datapoint_wins :
  forall self bucket metric stg_type statistic w st d dp rest V U,
    cloudwatch w (cw_calls st) (request_at w st bucket metric stg_type statistic)
    = Ret (VDict d) ->
    dict_get d "Datapoints" = Some (VList (VDict dp :: rest)) ->
    dict_get dp statistic = Some V ->
    dict_get dp "Unit" = Some U ->
    fst (CwMetric.get_s3_metric self bucket metric stg_type statistic w st)
    = Ret (VDict [("Value", V); ("Unit", U)]).
Proof.
  intros self bucket metric stg_type statistic w st d dp rest V U H Hd HV HU.
  rewrite get_s3_metric_run. cbv zeta. rewrite H. cbn [fst].
  unfold sample_of, usable_datapoint. rewrite Hd, HV, HU. reflexivity.
Qed.

(** X (an incomplete first data point).  If the first data point lacks
    the statistic asked for, or lacks "Unit", the result is the fallback
    [{Value: 0, Unit: None}]: a value that is present is dropped with the
    missing unit, and later data points are not looked at. *)
Theorem incomplete_first_datapoint_is_no_data :
  forall self bucket metric stg_type statistic w st d dp rest,
    cloudwatch w (cw_calls st) (request_at w st bucket metric stg_type statistic)
    = Ret (VDict d) ->
    dict_get d "Datapoints" = Some (VList (VDict dp :: rest)) ->
    dict_get dp statistic = None \/ dict_get dp "Unit" = None ->
    fst (CwMetric.get_s3_metric self bucket metric stg_type statistic w st)
    = Ret (VDict [("Value", VInt 0); ("Unit", VNone)]).
Proof.
  intros self bucket metric stg_type statistic w st d dp rest H Hd Hmiss.
  rewrite get_s3_metric_run. cbv zeta. rewrite H. cbn [fst].
  unfold sample_of, usable_datapoint. rewrite Hd.
  destruct Hmiss as [-> | ->]; [reflexivity |].
  destruct (dict_get dp statistic); reflexivity.
Qed.

(** ** The display methods *)

Lemma sample_unit response :
  getitem_str (sample_of response "Sum") "Unit" = Ret (unit_of response).
Proof.
  unfold sample_of, unit_of.
  destruct (usable_datapoint response "Sum") as [[v u] |]; reflexivity.
Qed.

Lemma display_bucket_size_run str self bucket w st :
  display_bucket_size str self bucket w st =
  let req := request_at w st (VStr bucket) "BucketSizeBytes" "StandardStorage" "Sum" in
  let answer := cloudwatch w (cw_calls st) req in
  let st1 := after_call st req answer in
  match answer with
  | Raise e => (Raise e, st1)
  | Ret response =>
      match int (reading_of response) with
      | Raise e => (Raise e, st1)
      | Ret n =>
          (Ret tt,
           {| trace :=
                (trace st1
                 ++ [EvPrint (bucket ++ ": " ++ str_of_Z n ++ " "
                              ++ str (unit_of response))])%list;
              clock_reads := clock_reads st1;
              cw_calls := cw_calls st1 |})
      end
  end.
Proof.
  unfold display_bucket_size, CwMetric.get_bucket_size. unfold bind at 1.
  rewrite get_s3_metric_run. cbv zeta.
  destruct (cloudwatch w (cw_calls st) _) as [response | e]; [| reflexivity].
  rewrite bind_lift, sample_value, bind_lift.
  destruct (int (reading_of response)) as [n | e]; [| reflexivity].
  rewrite bind_lift, sample_unit. reflexivity.
Qed.

Lemma display_object_count_run self bucket w st :
  display_object_count self bucket w st =
  let req := request_at w st (VStr bucket) "NumberOfObjects" "AllStorageTypes" "Sum" in
  let answer := cloudwatch w (cw_calls st) req in
  let st1 := after_call st req answer in
  match answer with
  | Raise e => (Raise e, st1)
  | Ret response =>
      match int (reading_of response) with
      | Raise e => (Raise e, st1)
      | Ret n =>
          (Ret tt,
           {| trace :=
                (trace st1 ++ [EvPrint (bucket ++ ": " ++ str_of_Z n ++ " Object/s")])%list;
              clock_reads := clock_reads st1;
              cw_calls := cw_calls st1 |})
      end
  end.
Proof.
  unfold display_object_count, CwMetric.get_bucket_object_count. unfold bind at 1.
  rewrite get_s3_metric_run. cbv zeta.
  destruct (cloudwatch w (cw_calls st) _) as [response | e]; [| reflexivity].
  rewrite bind_lift, sample_value, bind_lift.
  destruct (int (reading_of response)) as [n | e]; reflexivity.
Qed.

(** X (display_bucket_size).  When CloudWatch answers, the method prints
    one line: for a usable data point with value V and unit U the bucket,
    [int(V)] and the text of U; for a response without one, the bucket,
    0 and the text of [None]. *)
Theorem display_bucket_size_prints :
  forall (str : value -> string) self bucket w st response,
    cloudwatch w (cw_calls st)
      (request_at w st (VStr bucket) "BucketSizeBytes" "StandardStorage" "Sum")
    = Ret response ->
    (forall V U n,
       usable_datapoint response "Sum" = Some (V, U) ->
       int V = Ret n ->
       fst (display_bucket_size str self bucket w st) = Ret tt
       /\ filter is_output (trace (snd (display_bucket_size str self bucket w st)))
          = (filter is_output (trace st)
             ++ [EvPrint (bucket ++ ": " ++ str_of_Z n ++ " " ++ str U)])%list)
    /\ (usable_datapoint response "Sum" = None ->
        str VNone = "None" ->
        fst (display_bucket_size str self bucket w st) = Ret tt
        /\ filter is_output (trace (snd (display_bucket_size str self bucket w st)))
           = (filter is_output (trace st) ++ [EvPrint (bucket ++ ": 0 None")])%list).
Proof.
  intros str self bucket w st response H.
  rewrite display_bucket_size_run. cbv zeta. rewrite H.
  unfold reading_of, unit_of. split.
  - intros V U n -> ->. cbn [fst snd trace after_call].
    rewrite !filter_app. cbn [filter is_output]. rewrite app_nil_r. split; reflexivity.
  - intros -> Hnone. cbn [int fst snd trace after_call].
    rewrite !filter_app. cbn [filter is_output]. rewrite app_nil_r, Hnone.
    split; reflexivity.
Qed.

(** X (display_object_count).  When CloudWatch answers, the method prints
    one line with the bucket, [int] of the reading and the fixed label
    "Object/s": 0 for a response without a usable data point; the unit
    CloudWatch reports is never shown. *)
Theorem display_object_count_prints :
  forall self bucket w st response n,
    cloudwatch w (cw_calls st)
      (request_at w st (VStr bucket) "NumberOfObjects" "AllStorageTypes" "Sum")
    = Ret response ->
    int (reading_of response) = Ret n ->
    fst (display_object_count self bucket w st) = Ret tt
    /\ filter is_output (trace (snd (display_object_count self bucket w st)))
       = (filter is_output (trace st)
          ++ [EvPrint (bucket ++ ": " ++ str_of_Z n ++ " Object/s")])%list
    /\ (usable_datapoint response "Sum" = None -> n = 0).
Proof.
  intros self bucket w st response n H Hn.
  rewrite display_object_count_run. cbv zeta. rewrite H, Hn.
  cbn [fst snd trace after_call].
  rewrite !filter_app. cbn [filter is_output]. rewrite app_nil_r.
  repeat split. intros Hu. unfold reading_of in Hn. rewrite Hu in Hn.
  cbn [int] in Hn. congruence.
Qed.

(** X (the display methods fail silently).  Either display method makes
    exactly one metric query, whatever happens; when it raises -- the query
    failed, or [int] refused the reading -- it has printed nothing. *)
Theorem display_methods_query_once :
  forall (str : value -> string) self bucket w st,
    (forall r st',
       display_bucket_size str self bucket w st = (r, st') ->
       cw_calls st' = S (cw_calls st)
       /\ queries (trace st') = (queries (trace st) ++ [size_query (VStr bucket)])%list
       /\ (r <> Ret tt -> filter is_output (trace st') = filter is_output (trace st)))
    /\ (forall r st',
          display_object_count self bucket w st = (r, st') ->
          cw_calls st' = S (cw_calls st)
          /\ queries (trace st') = (queries (trace st) ++ [count_query (VStr bucket)])%list
          /\ (r <> Ret tt -> filter is_output (trace st') = filter is_output (trace st))).
Proof.
  intros str self bucket w st. split; intros r st'.
  - rewrite display_bucket_size_run. cbv zeta.
    destruct (cloudwatch w (cw_calls st) _) as [response | e].
    + destruct (int (reading_of response)) as [n | e]; intros [= <- <-];
        cbn [trace cw_calls after_call];
        rewrite ?queries_app, ?filter_app; cbn; rewrite ?app_nil_r;
        repeat split; intros Hr; congruence.
    + intros [= <- <-]. cbn [trace cw_calls after_call].
      rewrite ?queries_app, ?filter_app. cbn. rewrite ?app_nil_r. repeat split.
  - rewrite display_object_count_run. cbv zeta.
    destruct (cloudwatch w (cw_calls st) _) as [response | e].
    + destruct (int (reading_of response)) as [n | e]; intros [= <- <-];
        cbn [trace cw_calls after_call];
        rewrite ?queries_app, ?filter_app; cbn; rewrite ?app_nil_r;
        repeat split; intros Hr; congruence.
    + intros [= <- <-]. cbn [trace cw_calls after_call].
      rewrite ?queries_app, ?filter_app. cbn. rewrite ?app_nil_r. repeat split.
Qed.

(** ** The session *)

Lemma rstrip_slash_kept h n :
  AwsSession.ends_with_slash h = false ->
  AwsSession.rstrip_slash (h ++ slashes n) = h.
Proof.
  induction h as [| c h IH]; intros E.
  - cbn [append]. clear E. induction n as [| n IH]; [reflexivity |].
    cbn [slashes AwsSession.rstrip_slash]. rewrite IH. reflexivity.
  - cbn [append AwsSession.rstrip_slash]. destruct h as [| c' h].
    + cbn [AwsSession.ends_with_slash] in E. cbn [append].
      assert (Z : AwsSession.rstrip_slash (slashes n) = "").
      { clear. induction n as [| n IH]; [reflexivity |].
        cbn [slashes AwsSession.rstrip_slash]. rewrite IH. reflexivity. }
      rewrite Z, E. reflexivity.
    + rewrite IH by exact E. reflexivity.
Qed.

Lemma join_under_home h n cache :
  AwsSession.ends_with_slash h = false ->
  (forall rest, cache <> String "/" rest) ->
  AwsSession.os_path_join (AwsSession.expanduser_tilde (h ++ slashes n)) cache
  = h ++ "/" ++ cache.
Proof.
  intros E Hrel. unfold AwsSession.expanduser_tilde.
  rewrite (rstrip_slash_kept h n E). unfold AwsSession.os_path_join.
  destruct cache as [| c cache].
  - destruct h as [| c' h]; [reflexivity |]. rewrite E. reflexivity.
  - assert (Hc : c <> "/"%char) by (intros ->; exact (Hrel cache eq_refl)).
    assert (J : forall a, match String c cache with
                          | String "/" _ => String c cache
                          | _ => a
                          end = a).
    { intros a. destruct c as [[] [] [] [] [] [] [] []]; try reflexivity.
      contradiction Hc. reflexivity. }
    rewrite J. destruct h as [| c' h]; [reflexivity |]. rewrite E. reflexivity.
Qed.

(** X (the session).  Constructing the provider with "sso" or "cli" and a
    named profile of the configuration and calling [cli] on it returns a
    session made with that profile and region and leaves no event; its
    assume-role cache is [<home>/.aws/<mode>/cache], where [<home>] is the
    home directory of the environment without the separators it ends in:
    one separator stands before [.aws], however many the home directory
    ends in, also when nothing but separators is given. *)
Theorem session_cache_follows_mode :
  forall p region authentication w st h n,
    In p (profiles w) ->
    authentication = "sso" \/ authentication = "cli" ->
    home w = h ++ slashes n ->
    AwsSession.ends_with_slash h = false ->
    bind (AwsSession.__init__ (Some p) region authentication) AwsSession.cli w st
    = (Ret {| AwsSession.profile_name := Some p;
              AwsSession.region_name := region;
              AwsSession.assume_role_cache :=
                Some (h ++ "/.aws/" ++ authentication ++ "/cache") |}, st).
Proof.
  intros p region authentication w st h n Hp Hmode Hh E.
  assert (Hinit : AwsSession.__init__ (Some p) region authentication w st
                  = (Ret {| AwsSession.profile := Some p;
                            AwsSession.region := region;
                            AwsSession.authentication := authentication |}, st)).
  { destruct Hmode as [-> | ->]; reflexivity. }
  rewrite (bind_Ret _ _ _ _ _ _ Hinit).
  rewrite (cli_configured w st
             {| AwsSession.profile := Some p;
                AwsSession.region := region;
                AwsSession.authentication := authentication |} Hp).
  cbn [AwsSession.profile AwsSession.region AwsSession.authentication].
  rewrite Hh, (join_under_home h n (".aws/" ++ authentication ++ "/cache") E).
  - reflexivity.
  - intros rest. discriminate.
Qed.

(** ** The table and the totals of a run *)

Lemma printed_table_is_final profile bucket w r st' title table :
  query_bucket profile bucket w initial = (r, st') ->
  In (EvPrintTable title table) (trace st') ->
  exists buckets final st2,
    working_set w bucket = Ret buckets
    /\ for_each buckets (report_bucket (the_gateway w profile)) start w
         (after_selection w bucket initial) = (Ret final, st2)
    /\ table = pt final
    /\ (r = Ret tt ->
        exists storage,
          gib (bytes_sum final) = Ret storage
          /\ trace st'
             = (trace st2 ++ heading table ++ totals storage (count_sum final))%list).
Proof.
  intros Hrun Hin.
  destruct (run_any _ _ _ _ _ Hrun)
    as [(_ & -> & ->) | [(_ & e' & _ & -> & ->) | (_ & buckets & Hs & H)]].
  - destruct Hin.
  - apply In_table_filter in Hin.
    rewrite (proj1 (selection_quiet w bucket)) in Hin. destruct Hin.
  - destruct (report_and_print_any _ _ _ _ _ _ H)
      as (st2 & evs & out & _ & T2 & T & _ & _ & Hout).
    apply In_table_filter in Hin.
    rewrite T, T2, !filter_app, (proj1 (selection_quiet w bucket)) in Hin.
    destruct Hout as [(-> & W & _) | (A & final & Hloop & Hgib)].
    + rewrite (queries_not_tables _ (proj1 (ends_with_no_output _ _ W))) in Hin.
      destruct Hin.
    + rewrite (queries_not_tables _ (proj1 (answered_no_output _ A))) in Hin.
      exists buckets, final, st2. split; [exact Hs | split; [exact Hloop |]].
      destruct Hgib as [(-> & _ & ->) | (storage & G & -> & ->)];
        cbn in Hin; destruct Hin as [[= <- <-] | []].
      * split; [reflexivity | discriminate].
      * split; [reflexivity |]. intros _. exists storage. split; [exact G | exact T].
Qed.

Lemma report_bucket_more cw b acc w st acc' st' :
  report_bucket cw b acc w st = (Ret acc', st') ->
  align (pt acc') = set_alignments (align (pt acc))
  /\ (steady w ->
      exists n m,
        steady_int w (size_query b) = Ret n
        /\ steady_int w (count_query b) = Ret m
        /\ bytes_sum acc' = bytes_sum acc + n
        /\ count_sum acc' = count_sum acc + m).
Proof.
  unfold report_bucket, CwMetric.get_bucket_size, CwMetric.get_bucket_object_count.
  rewrite fetch_value_run. case_answer a1 e1 E1; [| discriminate].
  rewrite fetch_value_run. case_answer a2 e2 E2; [| discriminate].
  rewrite bind_lift. unfold Table.add_row.
  destruct (Nat.eqb _ _); [| discriminate].
  rewrite fetch_value_run. case_answer a3 e3 E3; [| discriminate].
  rewrite bind_lift.
  destruct (int (reading_of a3)) as [n | e] eqn:En; [| discriminate].
  rewrite fetch_value_run. case_answer a4 e4 E4; [| discriminate].
  rewrite bind_lift.
  destruct (int (reading_of a4)) as [m | e] eqn:Em; [| discriminate].
  unfold ret. intros [= <- <-]. split; [reflexivity |].
  intros Hs. exists n, m. unfold steady_int.
  match type of E3 with cloudwatch _ ?k ?r = _ =>
    rewrite (Hs 0%nat k (probe (size_query b)) r eq_refl eq_refl), E3 end.
  match type of E4 with cloudwatch _ ?k ?r = _ =>
    rewrite (Hs 0%nat k (probe (count_query b)) r eq_refl eq_refl), E4 end.
  cbn [rbind bytes_sum count_sum]. repeat split; assumption.
Qed.

Lemma report_loop_more cw buckets : forall acc w st acc' st',
  set_alignments (set_alignments (align (pt acc))) = set_alignments (align (pt acc)) ->
  for_each buckets (report_bucket cw) acc w st = (Ret acc', st') ->
  align (pt acc')
  = match buckets with
    | [] => align (pt acc)
    | _ :: _ => set_alignments (align (pt acc))
    end
  /\ (steady w ->
      exists bytes objects,
        total_of (fun b => steady_int w (size_query b)) buckets = Ret bytes
        /\ total_of (fun b => steady_int w (count_query b)) buckets = Ret objects
        /\ bytes_sum acc' = bytes_sum acc + bytes
        /\ count_sum acc' = count_sum acc + objects).
Proof.
  induction buckets as [| b buckets IH]; intros acc w st acc' st' Hidem; cbn [for_each].
  - unfold ret. intros [= <- <-]. split; [reflexivity |].
    intros _. exists 0, 0. cbn [total_of]. repeat split; lia.
  - intros H. apply bind_inv in H. destruct H as (acc1 & st1 & H1 & H2).
    destruct (report_bucket_more _ _ _ _ _ _ _ H1) as (A1 & S1).
    apply IH in H2; [| rewrite A1, Hidem; exact Hidem].
    destruct H2 as (A2 & S2). split.
    + rewrite A2, A1. destruct buckets; [reflexivity | exact Hidem].
    + intros Hs. destruct (S1 Hs) as (n & m & Fn & Fm & Bn & Cm).
      destruct (S2 Hs) as (bytes & objects & Tb & To & Bb & Co).
      exists (n + bytes), (m + objects). cbn [total_of].
      rewrite Fn, Fm, Tb, To. cbn [rbind]. repeat split; lia.
Qed.

(** X (alignment).  The alignments are set inside the loop: a table with
    at least one row has its first column aligned left and the two numeric
    columns right, while the table of an empty bucket sequence is printed
    with the alignments it was constructed with. *)
Theorem alignment_is_set_by_first_row :
  forall profile bucket w r st' title table,
    query_bucket profile bucket w initial = (r, st') ->
    In (EvPrintTable title table) (trace st') ->
    (rows table <> [] ->
     align table
     = [("Bucket name", "l"); ("Size [Bytes]", "r"); ("Object count", "r")])
    /\ (rows table = [] -> align table = align (Table.new columns)).
Proof.
  intros profile bucket w r st' title table Hrun Hin.
  destruct (printed_table_is_final _ _ _ _ _ _ _ Hrun Hin)
    as (buckets & final & st2 & _ & Hloop & -> & _).
  destruct (report_loop_more (the_gateway w profile) buckets start w _ final st2
              eq_refl Hloop) as (A & _).
  destruct (report_loop_inv (the_gateway w profile) buckets start w _ final st2
              eq_refl Hloop)
    as (evs & n & m & _ & _ & _ & L & Rw & _).
  cbn [start pt rows Table.new app] in Rw.
  destruct buckets as [| b buckets].
  - split; [| intros _; exact A].
    intros Hne. exfalso. apply Hne. rewrite Rw. reflexivity.
  - split; [intros _; exact A |].
    intros He. exfalso. rewrite Rw in He.
    destruct (readings evs) as [| v1 [| v2 [| v3 [| v4 rs]]]]; cbn [length] in L; try lia.
    discriminate He.
Qed.

Lemma total_of_perm f l l' :
  Permutation l l' -> forall s, total_of f l = Ret s -> total_of f l' = Ret s.
Proof.
  induction 1 as [| x l l' _ IH | x y l | l l' l'' _ IH1 _ IH2]; intros s; cbn [total_of].
  - exact (fun H => H).
  - destruct (f x) as [n |]; cbn [rbind]; [| discriminate].
    destruct (total_of f l) as [t |] eqn:E; cbn [rbind]; [| discriminate].
    intros [= <-]. rewrite (IH _ eq_refl). reflexivity.
  - destruct (f y) as [n |]; destruct (f x) as [m |]; cbn [rbind]; try discriminate.
    destruct (total_of f l) as [t |]; cbn [rbind]; [| discriminate].
    intros [= <-]. f_equal. lia.
  - intros H. exact (IH2 _ (IH1 _ H)).
Qed.

Lemma total_of_ext f g l :
  (forall b, f b = g b) -> total_of f l = total_of g l.
Proof.
  intros H. induction l as [| b l IH]; [reflexivity |].
  cbn [total_of]. rewrite H, IH. reflexivity.
Qed.

(** X (steady totals).  When CloudWatch gives the same answer to the same
    question, the totals of a completed run are the sums, over the bucket
    sequence, of each bucket's integer size and integer count: a bucket
    listed twice counts twice, and the storage line is made of the sum of
    the sizes. *)
Theorem steady_totals_are_bucket_sums :
  forall profile bucket w st',
    steady w ->
    query_bucket profile bucket w initial = (Ret tt, st') ->
    exists buckets bytes objects storage pre table,
      fst (select_buckets (the_session w profile) bucket w initial) = Ret buckets
      /\ total_of (fun b => steady_int w (size_query b)) buckets = Ret bytes
      /\ total_of (fun b => steady_int w (count_query b)) buckets = Ret objects
      /\ gib bytes = Ret storage
      /\ trace st' = (pre ++ heading table ++ totals storage objects)%list.
Proof.
  intros profile bucket w st' Hs Hrun.
  destruct (completed_run_prints _ _ _ _ Hrun) as [table Hin].
  destruct (printed_table_is_final _ _ _ _ _ _ _ Hrun Hin)
    as (buckets & final & st2 & Hw & Hloop & -> & Hret).
  destruct (Hret eq_refl) as (storage & G & T).
  destruct (report_loop_more (the_gateway w profile) buckets start w _ final st2
              eq_refl Hloop) as (_ & S).
  destruct (S Hs) as (bytes & objects & Tb & To & Bb & Co).
  cbn [start bytes_sum count_sum] in Bb, Co. rewrite Z.add_0_l in Bb, Co.
  exists buckets, bytes, objects, storage, (trace st2), (pt final).
  subst bytes objects. rewrite selected. repeat split; assumption.
Qed.

(** X (order of the listing).  Two completed runs against the same steady
    CloudWatch whose bucket sequences are permutations of each other print
    the same two total lines, whatever the order of the rows. *)
Theorem totals_do_not_depend_on_order :
  forall profile1 bucket1 w1 st1 profile2 bucket2 w2 st2 buckets1 buckets2,
    cloudwatch w1 = cloudwatch w2 ->
    steady w1 ->
    query_bucket profile1 bucket1 w1 initial = (Ret tt, st1) ->
    query_bucket profile2 bucket2 w2 initial = (Ret tt, st2) ->
    fst (select_buckets (the_session w1 profile1) bucket1 w1 initial) = Ret buckets1 ->
    fst (select_buckets (the_session w2 profile2) bucket2 w2 initial) = Ret buckets2 ->
    Permutation buckets1 buckets2 ->
    exists storage objects pre1 table1 pre2 table2,
      trace st1 = (pre1 ++ heading table1 ++ totals storage objects)%list
      /\ trace st2 = (pre2 ++ heading table2 ++ totals storage objects)%list.
Proof.
  intros profile1 bucket1 w1 st1 profile2 bucket2 w2 st2 buckets1 buckets2
    Hcw Hs1 Hrun1 Hrun2 Hb1 Hb2 Hperm.
  assert (Hs2 : steady w2).
  { intros n n' req req' Hd Hm. rewrite <- Hcw. exact (Hs1 n n' req req' Hd Hm). }
  assert (Tot : forall profile bucket w st',
             steady w ->
             query_bucket profile bucket w initial = (Ret tt, st') ->
             exists buckets bytes objects storage pre table,
               fst (select_buckets (the_session w profile) bucket w initial) = Ret buckets
               /\ total_of (fun b => steady_int w (size_query b)) buckets = Ret bytes
               /\ total_of (fun b => steady_int w (count_query b)) buckets = Ret objects
               /\ gib bytes = Ret storage
               /\ trace st' = (pre ++ heading table ++ totals storage objects)%list).
  { intros profile bucket w st' Hs Hrun.
    destruct (completed_run_prints _ _ _ _ Hrun) as [table Hin].
    destruct (printed_table_is_final _ _ _ _ _ _ _ Hrun Hin)
      as (buckets & final & st0 & Hw & Hloop & -> & Hret).
    destruct (Hret eq_refl) as (storage & G & T).
    destruct (report_loop_more (the_gateway w profile) buckets start w _ final st0
                eq_refl Hloop) as (_ & S).
    destruct (S Hs) as (bytes & objects & Tb & To & Bb & Co).
    cbn [start bytes_sum count_sum] in Bb, Co. rewrite Z.add_0_l in Bb, Co.
    exists buckets, bytes, objects, storage, (trace st0), (pt final).
    subst bytes objects. rewrite selected. repeat split; assumption. }
  destruct (Tot _ _ _ _ Hs1 Hrun1)
    as (bs1 & bytes1 & objects1 & storage1 & pre1 & table1 & Hw1 & Tb1 & To1 & G1 & T1).
  destruct (Tot _ _ _ _ Hs2 Hrun2)
    as (bs2 & bytes2 & objects2 & storage2 & pre2 & table2 & Hw2 & Tb2 & To2 & G2 & T2).
  rewrite Hb1 in Hw1. injection Hw1 as <-.
  rewrite Hb2 in Hw2. injection Hw2 as <-.
  assert (F : forall q, steady_int w2 q = steady_int w1 q).
  { intros q. unfold steady_int. rewrite Hcw. reflexivity. }
  apply (total_of_perm _ _ _ Hperm) in Tb1. apply (total_of_perm _ _ _ Hperm) in To1.
  assert (bytes2 = bytes1) as ->.
  { rewrite (total_of_ext _ _ _ (fun b => F (size_query b))) in Tb2. congruence. }
  assert (objects2 = objects1) as ->.
  { rewrite (total_of_ext _ _ _ (fun b => F (count_query b))) in To2. congruence. }
  assert (storage2 = storage1) as -> by congruence.
  exists storage1, objects1, pre1, table1, pre2, table2. split; assumption.
Qed.

(** ** The storage line *)

(** X (whole gibibytes).  The storage line counts in units of 1024^3
    bytes: a sum of sizes of exactly k times 1024^3 bytes, k below 2^23,
    is shown as k followed by ".00". *)
Theorem whole_gibibytes_print_exactly :
  forall k,
    0 <= k < 2 ^ 23 ->
    exists storage,
      gib (k * 1024 ^ 3) = Ret storage
      /\ format_2f storage = str_of_Z k ++ ".00".
Proof.
  intros k Hk.
  destruct (gib_exact (k * 1024 ^ 3)) as (storage & G & F).
  { change (1024 ^ 3) with (2 ^ 30). change (2 ^ 53) with (2 ^ 23 * 2 ^ 30).
    split; [lia |]. apply Z.mul_lt_mono_pos_r; lia. }
  exists storage. split; [exact G |]. rewrite F.
  replace (div_half_even (100 * (k * 1024 ^ 3)) (1024 ^ 3)) with (100 * k).
  - unfold fixed_2.
    replace (100 * k / 100) with k by (rewrite Z.mul_comm, Z.div_mul; lia).
    replace (100 * k mod 100) with 0 by (rewrite Z.mul_comm, Z.mod_mul; lia).
    replace (100 * k mod 10) with 0.
    + reflexivity.
    + replace (100 * k) with (10 * k * 10) by lia. rewrite Z.mod_mul; lia.
  - unfold div_half_even.
    replace (100 * (k * 1024 ^ 3)) with (100 * k * 1024 ^ 3) by lia.
    rewrite Z.div_mul, Z.mod_mul by (cbn; lia). reflexivity.
Qed.

(** X (small sums).  Any sum of sizes up to 5368709 bytes, just under
    half a hundredth of 1024^3, is shown as "0.00". *)
Theorem small_totals_print_zero :
  forall bytes,
    0 <= bytes <= 5368709 ->
    exists storage, gib bytes = Ret storage /\ format_2f storage = "0.00".
Proof.
  intros bytes Hb.
  destruct (gib_exact bytes) as (storage & G & F).
  { split; [lia |]. apply Z.le_lt_trans with 5368709; [lia | reflexivity]. }
  exists storage. split; [exact G |]. rewrite F.
  replace (div_half_even (100 * bytes) (1024 ^ 3)) with 0; [reflexivity |].
  unfold div_half_even. change (1024 ^ 3) with 1073741824.
  rewrite Z.div_small, Z.mod_small by lia.
  destruct (Z.compare_spec (2 * (100 * bytes)) 1073741824); lia.
Qed.

(** ** The further properties at concrete inputs *)

Lemma cw_ab_steady w : cloudwatch w = Examples.cw_ab -> steady w.
Proof.
  intros E n n' req req' Hd Hm. rewrite E.
  unfold Examples.cw_ab, Examples.bucket_is, Examples.dimension.
  rewrite Hd, Hm. reflexivity.
Qed.

Lemma display_bucket_size_prints_witness :
  filter is_output
    (trace (snd (display_bucket_size str_example Examples.gateway "a"
                   Examples.world_ab initial)))
  = [EvPrint "a: 1024 Bytes"]
  /\ filter is_output
       (trace (snd (display_bucket_size str_example Examples.gateway "ghost"
                      Examples.world_empty initial)))
     = [EvPrint "ghost: 0 None"].
Proof.
  destruct (display_bucket_size_prints str_example Examples.gateway "a"
              Examples.world_ab initial _ eq_refl) as (Hdata & _).
  destruct (display_bucket_size_prints str_example Examples.gateway "ghost"
              Examples.world_empty initial _ eq_refl) as (_ & Hnone).
  split.
  - exact (proj2 (Hdata (Examples.f64 1024) (VStr "Bytes") 1024 eq_refl eq_refl)).
  - exact (proj2 (Hnone eq_refl eq_refl)).
Defined.

Lemma display_object_count_prints_witness :
  filter is_output
    (trace (snd (display_object_count Examples.gateway "b" Examples.world_ab initial)))
  = [EvPrint "b: 10 Object/s"].
Proof.
  exact (proj1 (proj2 (display_object_count_prints Examples.gateway "b"
                         Examples.world_ab initial _ 10 eq_refl eq_refl))).
Defined.

Lemma display_methods_query_once_witness :
  cw_calls (snd (display_bucket_size str_example Examples.gateway "a"
                   Examples.world_down initial)) = 1%nat
  /\ filter is_output
       (trace (snd (display_bucket_size str_example Examples.gateway "a"
                      Examples.world_down initial))) = [].
Proof.
  destruct (display_methods_query_once str_example Examples.gateway "a"
              Examples.world_down initial) as (Hsize & _).
  destruct (Hsize _ _ (surjective_pairing _)) as (Hcalls & _ & Hquiet).
  split; [exact Hcalls |]. apply Hquiet. discriminate.
Defined.

Lemma session_cache_follows_mode_witness :
  bind (AwsSession.__init__ (Some "prod") "eu-west-1" "cli") AwsSession.cli
    (at_home "/root//" Examples.world_ab) initial
  = (Ret {| AwsSession.profile_name := Some "prod";
            AwsSession.region_name := "eu-west-1";
            AwsSession.assume_role_cache := Some "/root/.aws/cli/cache" |}, initial)
  /\ bind (AwsSession.__init__ (Some "default") "eu-west-1" "sso") AwsSession.cli
       (at_home "/" Examples.world_ab) initial
     = (Ret {| AwsSession.profile_name := Some "default";
               AwsSession.region_name := "eu-west-1";
               AwsSession.assume_role_cache := Some "/.aws/sso/cache" |}, initial).
Proof.
  split.
  - apply (session_cache_follows_mode "prod" "eu-west-1" "cli"
             (at_home "/root//" Examples.world_ab) initial "/root" 2).
    + right. left. reflexivity.
    + right. reflexivity.
    + reflexivity.
    + reflexivity.
  - apply (session_cache_follows_mode "default" "eu-west-1" "sso"
             (at_home "/" Examples.world_ab) initial "" 1).
    + left. reflexivity.
    + left. reflexivity.
    + reflexivity.
    + reflexivity.
Defined.

Lemma missing_profile_ends_run_witness :
  query_bucket (Some "staging") (Some "a") Examples.world_ab initial
  = (Raise TypeError, initial).
Proof.
  apply (missing_profile_ends_run "staging" (Some "a") Examples.world_ab).
  cbn [In profiles Examples.world_ab]. intros [H | [H | []]]; discriminate H.
Defined.

Lemma first_listed_datapoint_wins_witness :
  fst (CwMetric.get_s3_metric Examples.gateway (VStr "a")
         "NumberOfObjects" "AllStorageTypes" "Sum" world_two initial)
  = Ret (VDict [("Value", Examples.f64 7); ("Unit", VStr "Count")]).
Proof.
  apply (first_listed_datapoint_wins Examples.gateway (VStr "a")
           "NumberOfObjects" "AllStorageTypes" "Sum" world_two initial
           [("Label", VStr "metric");
            ("Datapoints", VList [Examples.point (Examples.f64 7) "Count";
                                  Examples.point (Examples.f64 9) "Count"])]
           [("Timestamp", VStr "2024-01-01T00:00:00Z");
            ("Sum", Examples.f64 7); ("Unit", VStr "Count")]
           [Examples.point (Examples.f64 9) "Count"]);
    reflexivity.
Defined.

Lemma incomplete_first_datapoint_is_no_data_witness :
  fst (CwMetric.get_s3_metric Examples.gateway (VStr "a")
         "NumberOfObjects" "AllStorageTypes" "Sum" world_no_unit initial)
  = Ret (VDict [("Value", VInt 0); ("Unit", VNone)]).
Proof.
  apply (incomplete_first_datapoint_is_no_data Examples.gateway (VStr "a")
           "NumberOfObjects" "AllStorageTypes" "Sum" world_no_unit initial
           [("Label", VStr "metric");
            ("Datapoints", VList [VDict [("Sum", Examples.f64 7)];
                                  Examples.point (Examples.f64 9) "Count"])]
           [("Sum", Examples.f64 7)]
           [Examples.point (Examples.f64 9) "Count"]);
    [reflexivity | reflexivity | right; reflexivity].
Defined.

Lemma run_leaves_listing_queries_output_witness :
  exists sel evs out,
    trace (snd (query_bucket (Some "prod") None world_flaky initial))
    = (sel ++ evs ++ out)%list
    /\ (sel = []
        \/ (truthy None = false /\ sel = [EvListBuckets (s3_list_buckets world_flaky)]))
    /\ forallb is_query evs = true
    /\ ((out = []
         /\ exists e, fst (query_bucket (Some "prod") None world_flaky initial) = Raise e)
        \/ (exists table,
              out = heading table
              /\ fst (query_bucket (Some "prod") None world_flaky initial)
                 = Raise OverflowError)
        \/ (exists table storage objects,
              out = (heading table ++ totals storage objects)%list
              /\ fst (query_bucket (Some "prod") None world_flaky initial) = Ret tt)).
Proof.
  exact (run_leaves_listing_queries_output (Some "prod") None world_flaky _ _
           (surjective_pairing _)).
Defined.

Lemma failed_query_ends_run_silently_witness :
  fst (query_bucket (Some "prod") None world_flaky initial)
  = Raise (BotoError "Throttling")
  /\ filter is_output (trace (snd (query_bucket (Some "prod") None world_flaky initial)))
     = []
  /\ length (queries (trace (snd (query_bucket (Some "prod") None world_flaky initial))))
     = 5%nat.
Proof.
  destruct (failed_query_ends_run_silently (Some "prod") None world_flaky _ _
              (request_at world_flaky
                 {| trace := []; clock_reads := 8; cw_calls := 4 |}
                 (VStr "b") "BucketSizeBytes" "StandardStorage" "Sum")
              (BotoError "Throttling") (surjective_pairing _))
    as (Hr & Hquiet & _).
  - vm_compute. do 5 right. left. reflexivity.
  - split; [exact Hr | split; [exact Hquiet |]]. vm_compute. reflexivity.
Defined.

Lemma listing_failure_ends_run_witness :
  query_bucket (Some "prod") None world_denied initial
  = (Raise (BotoError "AccessDenied"),
     {| trace := [EvListBuckets (Raise (BotoError "AccessDenied"))];
        clock_reads := 0;
        cw_calls := 0 |}).
Proof.
  destruct (listing_failure_ends_run (Some "prod") None world_denied) as (Hraise & _).
  - right. left. reflexivity.
  - reflexivity.
  - exact (Hraise (BotoError "AccessDenied") eq_refl).
Defined.

Lemma every_query_is_well_formed_witness :
  exists req answer,
    In (req, answer)
      (query_events (trace (snd (query_bucket (Some "prod") None Examples.world_ab initial))))
    /\ Namespace req = "AWS/S3" /\ Period req = 86400 /\ Statistics req = ["Sum"].
Proof.
  assert (H : exists q rest,
             query_events
               (trace (snd (query_bucket (Some "prod") None Examples.world_ab initial)))
             = q :: rest).
  { vm_compute. eexists _, _. reflexivity. }
  destruct H as ([req answer] & rest & Hq). exists req, answer.
  assert (Hin : In (req, answer)
                  (query_events
                     (trace (snd (query_bucket (Some "prod") None
                                    Examples.world_ab initial))))).
  { rewrite Hq. left. reflexivity. }
  destruct (every_query_is_well_formed (Some "prod") None Examples.world_ab _ _
              req answer (surjective_pairing _) Hin) as (N & P & S & _).
  split; [exact Hin | split; [exact N | split; [exact P | exact S]]].
Defined.

Lemma world_ab_monotone : monotone_clock Examples.world_ab.
Proof. intros i j Hij. cbn [now Examples.world_ab]. lia. Qed.

Lemma every_query_has_its_own_window_witness :
  exists req answer,
    nth_error (query_events (trace (snd (query_bucket (Some "prod") None Examples.world_ab initial)))) 3 = Some (req, answer)
    /\ StartTime req = 1700000000000006 - 2 * 86400 * 1000000
    /\ EndTime req = 1700000000000007
    /\ 2 * 86400 * 1000000 <= EndTime req - StartTime req.
Proof.
  assert (H : exists q, nth_error (query_events (trace (snd (query_bucket (Some "prod") None Examples.world_ab initial)))) 3 = Some q).
  { vm_compute. eexists. reflexivity. }
  destruct H as [[req answer] Hq]. exists req, answer.
  destruct (every_query_has_its_own_window (Some "prod") None Examples.world_ab _ _
              3%nat req answer (surjective_pairing _) Hq) as (Hs & He & _ & _ & Hm).
  split; [exact Hq | split; [exact Hs | split; [exact He |]]].
  exact (Hm world_ab_monotone).
Defined.

Lemma alignment_is_set_by_first_row_witness :
  map align (tables (trace (snd (query_bucket (Some "prod") None Examples.world_ab initial))))
  = [[("Bucket name", "l"); ("Size [Bytes]", "r"); ("Object count", "r")]].
Proof.
  assert (H : exists table,
             tables (trace (snd (query_bucket (Some "prod") None Examples.world_ab initial))) = [table]
             /\ In (EvPrintTable "S3 bucket metrics" table) (trace (snd (query_bucket (Some "prod") None Examples.world_ab initial)))
             /\ rows table <> []).
  { vm_compute. eexists. split; [reflexivity | split; [| discriminate]].
    do 10 right. left. reflexivity. }
  destruct H as (table & -> & Hin & Hrows).
  destruct (alignment_is_set_by_first_row (Some "prod") None Examples.world_ab _ _
              _ table (surjective_pairing _) Hin) as (Hset & _).
  cbn [map]. rewrite (Hset Hrows). reflexivity.
Defined.

Lemma steady_totals_are_bucket_sums_witness :
  exists buckets storage pre table,
    fst (select_buckets (the_session Examples.world_ab (Some "prod")) None
           Examples.world_ab initial) = Ret buckets
    /\ total_of (fun b => steady_int Examples.world_ab (size_query b)) buckets = Ret 3072
    /\ total_of (fun b => steady_int Examples.world_ab (count_query b)) buckets = Ret 15
    /\ trace (snd (query_bucket (Some "prod") None Examples.world_ab initial)) = (pre ++ heading table ++ totals storage 15)%list.
Proof.
  assert (Hrun : query_bucket (Some "prod") None Examples.world_ab initial
                 = (Ret tt, snd (query_bucket (Some "prod") None Examples.world_ab initial))) by (vm_compute; reflexivity).
  destruct (steady_totals_are_bucket_sums (Some "prod") None Examples.world_ab _
              (cw_ab_steady Examples.world_ab eq_refl) Hrun)
    as (buckets & bytes & objects & storage & pre & table & Hb & Tb & To & _ & T).
  exists buckets, storage, pre, table.
  assert (Hb' := Hb). vm_compute in Hb'. injection Hb' as <-.
  vm_compute in Tb. injection Tb as <-. vm_compute in To. injection To as <-.
  repeat split; assumption.
Defined.

Lemma totals_do_not_depend_on_order_witness :
  exists storage objects pre1 table1 pre2 table2,
    trace (snd (query_bucket (Some "prod") None Examples.world_ab initial)) = (pre1 ++ heading table1 ++ totals storage objects)%list
    /\ trace (snd (query_bucket None None world_slash initial))
       = (pre2 ++ heading table2 ++ totals storage objects)%list.
Proof.
  apply (totals_do_not_depend_on_order (Some "prod") None Examples.world_ab _
           None None world_slash _ [VStr "a"; VStr "b"] [VStr "b"; VStr "a"]).
  - reflexivity.
  - exact (cw_ab_steady Examples.world_ab eq_refl).
  - vm_compute. reflexivity.
  - vm_compute. reflexivity.
  - reflexivity.
  - reflexivity.
  - apply perm_swap.
Defined.

Lemma whole_gibibytes_print_exactly_witness :
  exists storage, gib (3 * 1024 ^ 3) = Ret storage /\ format_2f storage = "3.00".
Proof. apply (whole_gibibytes_print_exactly 3). split; [lia | reflexivity]. Defined.

Lemma small_totals_print_zero_witness :
  exists storage, gib 3072 = Ret storage /\ format_2f storage = "0.00".
Proof. apply (small_totals_print_zero 3072). lia. Defined.
